(** * Meal & Recipe Planner: the submit pipeline of [src/index.tsx]

    A shallow embedding of the [App] component: its state, the event
    handlers, the prompt that [handleSubmit] composes, the reply it
    parses, and the part of the element tree that shows the outcome.

    JavaScript strings are held as their UTF-8 bytes. *)

From Stdlib Require Import Strings.String Strings.Ascii ZArith NArith List Bool Lia.
From Stdlib Require Import Numbers.DecimalString.
From Stdlib Require Numbers.DecimalPos Numbers.DecimalZ.
From Stdlib Require QArith Qround Qabs.
Import ListNotations.
Local Open Scope string_scope.
Set Warnings "-register-all".

(* ================================================================== *)
(** * The values of the language that the program handles *)
(* ================================================================== *)

Module JS.

(** A numeric literal as [JSON.parse] reads it, kept exact:
    (-1)^[d_neg] * [d_mant] * 10^[d_exp].  The Number the engine holds is
    this decimal rounded to the nearest double. *)
Record decimal := { d_neg : bool; d_mant : N; d_exp : Z }.

(** What [JSON.parse] can return, and [undefined] (a missing property). *)
Inductive value :=
| VUndefined
| VNull
| VBool (b : bool)
| VNumber (d : decimal)
| VString (s : string)
| VArray (items : list value)
| VObject (members : list (string * value)).

Inductive exn :=
| TypeError
| SyntaxError
| HostError (what : string).

(** How an expression ends: with a value, or by throwing. *)
Inductive completion (A : Type) :=
| Normal (a : A)
| Throw (e : exn).
Arguments Normal {A} a.
Arguments Throw {A} e.

Definition bind {A B} (c : completion A) (k : A -> completion B) : completion B :=
  match c with
  | Normal a => k a
  | Throw e => Throw e
  end.

(** [Array.prototype.map] with a callback that may throw: the first
    throw ends the whole call. *)
Fixpoint map_from {A B} (f : A -> nat -> completion B) (l : list A) (i : nat)
  : completion (list B) :=
  match l with
  | [] => Normal []
  | x :: r =>
      bind (f x i) (fun y =>
      bind (map_from f r (S i)) (fun ys => Normal (y :: ys)))
  end.

(** The decimal rounds to +0 or -0: it is 0, or at most half the least
    subnormal double 2^-1074 (the tie goes to the even one, 0). *)
Definition decimal_is_zero (d : decimal) : bool :=
  (d_mant d =? 0)%N
  || ((d_exp d <? 0)%Z
      && (Z.of_N (d_mant d) * 2 ^ 1075 <=? 10 ^ (- d_exp d))%Z).

(** [ToBoolean]: what [!v] and [v && ...] test. *)
Definition ToBoolean (v : value) : bool :=
  match v with
  | VUndefined | VNull => false
  | VBool b => b
  | VNumber d => negb (decimal_is_zero d)
  | VString s => negb (s =? "")
  | VArray _ | VObject _ => true
  end.

Fixpoint assoc {A} (k : string) (l : list (string * A)) : option A :=
  match l with
  | [] => None
  | (k', x) :: r => if k' =? k then Some x else assoc k r
  end.

(** [o[k] = x] on an object whose keys are not array indices: an
    existing key keeps its place, a new one goes last. *)
Fixpoint obj_set {A} (k : string) (x : A) (l : list (string * A)) : list (string * A) :=
  match l with
  | [] => [(k, x)]
  | (k', y) :: r => if k' =? k then (k', x) :: r else (k', y) :: obj_set k x r
  end.

Definition keys {A} (l : list (string * A)) : list string := map fst l.
Definition values {A} (l : list (string * A)) : list A := map snd l.

(** [v.k] for the property names this program reads off a parsed reply
    ([meals], [mealType], [recipeName], [ingredients], [instructions],
    [shoppingList]): none of them lives on a prototype, so only an own
    property of an object answers, and [null] and [undefined] throw. *)
Definition Get (v : value) (k : string) : completion value :=
  match v with
  | VUndefined | VNull => Throw TypeError
  | VObject ms =>
      Normal (match assoc k ms with Some x => x | None => VUndefined end)
  | VBool _ | VNumber _ | VString _ | VArray _ => Normal VUndefined
  end.

(** [v.map(f)]: only an array has a callable [map]. *)
Definition call_map {B} (v : value) (f : value -> nat -> completion B)
  : completion (list B) :=
  match v with
  | VArray items => map_from f items 0
  | _ => Throw TypeError
  end.

(** [ToString] of [string | undefined]. *)
Definition ToString (t : option string) : string :=
  match t with
  | Some s => s
  | None => "undefined"
  end.

End JS.
Export JS.

(* ================================================================== *)
(** * [JSON.parse] *)
(* ================================================================== *)

Module JSON.

Definition quote : ascii := "034"%char.
Definition backslash : ascii := "092"%char.

Definition is_ws (c : ascii) : bool :=
  match c with
  | " "%char | "009"%char | "010"%char | "013"%char => true
  | _ => false
  end.

Fixpoint skip_ws (s : string) : string :=
  match s with
  | String c r => if is_ws c then skip_ws r else s
  | EmptyString => s
  end.

Definition digit (c : ascii) : option N :=
  let n := N_of_ascii c in
  if ((48 <=? n) && (n <=? 57))%N then Some (n - 48)%N else None.

Definition hex (c : ascii) : option N :=
  let n := N_of_ascii c in
  if ((48 <=? n) && (n <=? 57))%N then Some (n - 48)%N
  else if ((97 <=? n) && (n <=? 102))%N then Some (n - 87)%N
  else if ((65 <=? n) && (n <=? 70))%N then Some (n - 55)%N
  else None.

Definition hex4 (a b c d : ascii) : option N :=
  match hex a, hex b, hex c, hex d with
  | Some x, Some y, Some z, Some w => Some (((x * 16 + y) * 16 + z) * 16 + w)%N
  | _, _, _, _ => None
  end.

(** ** String literals *)

(** A character of a string literal: a byte copied from the text, or
    the UTF-16 code unit of a [\uXXXX] escape. *)
Inductive cunit :=
| Raw (c : ascii)
| Esc (n : N).

Definition escape_char (e : ascii) : option ascii :=
  match e with
  | "034"%char => Some "034"%char
  | "092"%char => Some "092"%char
  | "/"%char => Some "/"%char
  | "b"%char => Some "008"%char
  | "f"%char => Some "012"%char
  | "n"%char => Some "010"%char
  | "r"%char => Some "013"%char
  | "t"%char => Some "009"%char
  | _ => None
  end.

Definition cons_unit (u : cunit) (r : option (list cunit * string))
  : option (list cunit * string) :=
  match r with
  | Some (us, rest) => Some (u :: us, rest)
  | None => None
  end.

(** The text after an opening quote, up to the closing one. *)
Fixpoint scan_chars (s : string) : option (list cunit * string) :=
  match s with
  | EmptyString => None
  | String c r =>
      if (c =? quote)%char then Some ([], r)
      else if (c =? backslash)%char then
        match r with
        | String e r1 =>
            match escape_char e with
            | Some x => cons_unit (Raw x) (scan_chars r1)
            | None =>
                if (e =? "u")%char then
                  match r1 with
                  | String h1 (String h2 (String h3 (String h4 r2))) =>
                      match hex4 h1 h2 h3 h4 with
                      | Some n => cons_unit (Esc n) (scan_chars r2)
                      | None => None
                      end
                  | _ => None
                  end
                else None
            end
        | EmptyString => None
        end
      else if (N_of_ascii c <? 32)%N then None
      else cons_unit (Raw c) (scan_chars r)
  end.

Definition byte (n : N) : string := String (ascii_of_N n) EmptyString.

(** UTF-8 of a code point (a lone surrogate is written like any other
    three-byte code point). *)
Definition utf8 (n : N) : string :=
  if (n <? 128)%N then byte n
  else if (n <? 2048)%N then
    byte (192 + n / 64) ++ byte (128 + n mod 64)
  else if (n <? 65536)%N then
    byte (224 + n / 4096) ++ byte (128 + (n / 64) mod 64) ++ byte (128 + n mod 64)
  else
    byte (240 + n / 262144) ++ byte (128 + (n / 4096) mod 64)
    ++ byte (128 + (n / 64) mod 64) ++ byte (128 + n mod 64).

Definition is_high (n : N) : bool := ((55296 <=? n) && (n <=? 56319))%N.
Definition is_low (n : N) : bool := ((56320 <=? n) && (n <=? 57343))%N.

(** Bytes of the string: a high surrogate followed by a low one is one
    code point. *)
Fixpoint encode_units (us : list cunit) : string :=
  match us with
  | [] => EmptyString
  | Raw c :: r => String c (encode_units r)
  | Esc hi :: r =>
      match r with
      | Esc lo :: r' =>
          if is_high hi && is_low lo
          then utf8 (65536 + (hi - 55296) * 1024 + (lo - 56320)) ++ encode_units r'
          else utf8 hi ++ encode_units r
      | _ => utf8 hi ++ encode_units r
      end
  end.

Definition scan_string (s : string) : option (string * string) :=
  match scan_chars s with
  | Some (us, rest) => Some (encode_units us, rest)
  | None => None
  end.

(** ** Numbers *)

Fixpoint take_digits (s : string) : list N * string :=
  match s with
  | String c r =>
      match digit c with
      | Some d => let (ds, rest) := take_digits r in (d :: ds, rest)
      | None => ([], s)
      end
  | EmptyString => ([], s)
  end.

Definition digits_value (ds : list N) : N :=
  fold_left (fun acc d => (acc * 10 + d)%N) ds 0%N.

Definition scan_int (s : string) : option (list N * string) :=
  match s with
  | String "0"%char r => Some ([0%N], r)
  | String c _ =>
      match digit c with
      | Some _ => Some (take_digits s)
      | None => None
      end
  | EmptyString => None
  end.

Definition scan_frac (s : string) : option (list N * string) :=
  match s with
  | String "."%char r =>
      match take_digits r with
      | ([], _) => None
      | p => Some p
      end
  | _ => Some ([], s)
  end.

(** The sign of an exponent. *)
Definition scan_sign (s : string) : bool * string :=
  match s with
  | String "-"%char r => (true, r)
  | String "+"%char r => (false, r)
  | _ => (false, s)
  end.

(** What follows [e] or [E]. *)
Definition scan_exp_digits (s : string) : option (Z * string) :=
  let (neg, r1) := scan_sign s in
  match take_digits r1 with
  | ([], _) => None
  | (ds, rest) =>
      let e := Z.of_N (digits_value ds) in
      Some (if neg : bool then (- e)%Z else e, rest)
  end.

Definition scan_exp (s : string) : option (Z * string) :=
  match s with
  | String ("e" | "E")%char r => scan_exp_digits r
  | _ => Some (0%Z, s)
  end.

(** The minus sign of a number. *)
Definition scan_minus (s : string) : bool * string :=
  match s with
  | String "-"%char r => (true, r)
  | _ => (false, s)
  end.

Definition scan_number (s : string) : option (decimal * string) :=
  let (neg, s1) := scan_minus s in
  match scan_int s1 with
  | None => None
  | Some (ids, s2) =>
      match scan_frac s2 with
      | None => None
      | Some (fds, s3) =>
          match scan_exp s3 with
          | None => None
          | Some (e, s4) =>
              Some ({| d_neg := neg;
                       d_mant := digits_value (ids ++ fds);
                       d_exp := (e - Z.of_nat (List.length fds))%Z |}, s4)
          end
      end
  end.

(** ** Values *)

(** [s] without its prefix [word]. *)
Fixpoint expect (word : string) (s : string) : option string :=
  match word with
  | EmptyString => Some s
  | String c word' =>
      match s with
      | String x r => if (c =? x)%char then expect word' r else None
      | EmptyString => None
      end
  end.

Inductive outcome (A : Type) :=
| Ok (a : A) (rest : string)
| Bad
| Fuel.
Arguments Ok {A} a rest.
Arguments Bad {A}.
Arguments Fuel {A}.

Definition of_option {A} (o : option (A * string)) : outcome A :=
  match o with
  | Some (a, rest) => Ok a rest
  | None => Bad
  end.

Definition keyword (word : string) (v : value) (s : string) : outcome value :=
  match expect word s with
  | Some rest => Ok v rest
  | None => Bad
  end.

Fixpoint parse_value (fuel : nat) (s : string) : outcome value :=
  match fuel with
  | O => Fuel
  | S fuel' =>
      match skip_ws s with
      | EmptyString => Bad
      | String c r as s0 =>
          if (c =? "n")%char then keyword "null" VNull s0
          else if (c =? "t")%char then keyword "true" (VBool true) s0
          else if (c =? "f")%char then keyword "false" (VBool false) s0
          else if (c =? quote)%char then
            match scan_string r with
            | Some (str, rest) => Ok (VString str) rest
            | None => Bad
            end
          else if (c =? "[")%char then
            match skip_ws r with
            | String "]"%char rest => Ok (VArray []) rest
            | _ => parse_elements fuel' r []
            end
          else if (c =? "{")%char then
            match skip_ws r with
            | String "}"%char rest => Ok (VObject []) rest
            | _ => parse_members fuel' r []
            end
          else
            match scan_number s0 with
            | Some (d, rest) => Ok (VNumber d) rest
            | None => Bad
            end
      end
  end

with parse_elements (fuel : nat) (s : string) (acc : list value) : outcome value :=
  match fuel with
  | O => Fuel
  | S fuel' =>
      match parse_value fuel' s with
      | Ok v r =>
          match skip_ws r with
          | String ","%char rest => parse_elements fuel' rest (v :: acc)
          | String "]"%char rest => Ok (VArray (rev (v :: acc))) rest
          | _ => Bad
          end
      | Bad => Bad
      | Fuel => Fuel
      end
  end

with parse_members (fuel : nat) (s : string) (acc : list (string * value)) : outcome value :=
  match fuel with
  | O => Fuel
  | S fuel' =>
      match skip_ws s with
      | String c r =>
          if (c =? quote)%char then
            match scan_string r with
            | Some (k, r1) =>
                match skip_ws r1 with
                | String ":"%char r2 =>
                    match parse_value fuel' r2 with
                    | Ok v r3 =>
                        let acc' := obj_set k v acc in
                        match skip_ws r3 with
                        | String ","%char rest => parse_members fuel' rest acc'
                        | String "}"%char rest => Ok (VObject acc') rest
                        | _ => Bad
                        end
                    | Bad => Bad
                    | Fuel => Fuel
                    end
                | _ => Bad
                end
            | None => Bad
            end
          else Bad
      | EmptyString => Bad
      end
  end.

(** Two units of fuel per byte are enough (see [parse_fuel_enough]). *)
Definition parse_fuel (text : string) : nat := 2 * String.length text + 1.

(** The parser did not stop for want of fuel, and what it left of [s]
    is shorter than [s]. *)
Definition within {A} (s : string) (o : outcome A) : Prop :=
  match o with
  | Ok _ rest => String.length rest < String.length s
  | Bad => True
  | Fuel => False
  end.

(** The parser gave no [undefined]. *)
Definition defined (o : outcome value) : Prop :=
  match o with
  | Ok VUndefined _ => False
  | _ => True
  end.

(** [JSON.parse(text)]: one value, then only white space. *)
Definition parse (text : string) : completion value :=
  match parse_value (parse_fuel text) text with
  | Ok v rest =>
      match skip_ws rest with
      | EmptyString => Normal v
      | _ => Throw SyntaxError
      end
  | _ => Throw SyntaxError
  end.

(** Writes a JSON text with ' where the text has a double quote. *)
Fixpoint dq (s : string) : string :=
  match s with
  | EmptyString => EmptyString
  | String c r => String (if (c =? "'")%char then quote else c) (dq r)
  end.

End JSON.

(* ================================================================== *)
(** * The component *)
(* ================================================================== *)

Module Planner.

(** ** Numbers of the form *)

(** The Numbers, as the doubles they are: [Int z], an integer that a
    double holds exactly and prints digit by digit (|z| <= 2^53); the
    three values that are not finite; [Bin neg m e], any other finite
    double, (-1)^[neg] * [m] * 2^[e] with [m] odd.  The sign of a zero
    is not kept: both zeros print as 0. *)
Inductive number :=
| Int (z : Z)
| NaN
| Infinity
| NegInfinity
| Bin (neg : bool) (m : positive) (e : Z).

Definition bits (m : positive) : Z := Z.log2 (Zpos m) + 1.

(** The value of [n] is a double, and it is written in one way only. *)
Definition is_Number (n : number) : bool :=
  match n with
  | Int z => (Z.abs z <=? 2 ^ 53)%Z
  | NaN | Infinity | NegInfinity => true
  | Bin _ m e =>
      Z.odd (Zpos m)
      && (Zpos m <? 2 ^ 53)%Z
      && (-1074 <=? e)%Z
      && (bits m + e <=? 1024)%Z
      && ((e <? 0)%Z || (2 ^ 53 <? Zpos m * 2 ^ e)%Z)
  end.

(** *** The shortest decimal that reads back as a double

    [Number::toString] looks for integers n, k, s with
    10^(k-1) <= s < 10^k such that s * 10^(n-k) rounds to the double,
    with k as small as possible and, among those, the value closest to
    the double (an even s at a tie): the choice the standard recommends
    and the engines make, so that 5e-324 is not printed as 3e-324. *)

Definition pow (b e : Z) : QArith_base.Q :=
  QArith_base.Qpower (QArith_base.inject_Z b) e.

Definition q_lt (a b : QArith_base.Q) : bool := negb (QArith_base.Qle_bool b a).

Definition bin_value (m : positive) (e : Z) : QArith_base.Q :=
  QArith_base.Qmult (QArith_base.inject_Z (Zpos m)) (pow 2 e).

(** The unit in the last place is 2^[ulp_exp]: 53 bits, and no finer
    than 2^-1074. *)
Definition ulp_exp (m : positive) (e : Z) : Z := Z.max (bits m + e - 53) (-1074).

(** Half way to the next double. *)
Definition upper (m : positive) (e : Z) : QArith_base.Q :=
  QArith_base.Qplus (bin_value m e) (pow 2 (ulp_exp m e - 1)).

(** Half way to the double before: it is twice as near below a power
    of two. *)
Definition lower (m : positive) (e : Z) : QArith_base.Q :=
  if (m =? 1)%positive && (-1074 <? ulp_exp m e)%Z
  then QArith_base.Qminus (bin_value m e) (pow 2 (ulp_exp m e - 2))
  else QArith_base.Qminus (bin_value m e) (pow 2 (ulp_exp m e - 1)).

(** The 53-bit significand of m * 2^e (m odd) is even: a value half way
    rounds to it. *)
Definition even_significand (m : positive) (e : Z) : bool := (ulp_exp m e <? e)%Z.

(** [v] rounds to the double m * 2^e (to nearest, ties to even). *)
Definition rounds_to (m : positive) (e : Z) (v : QArith_base.Q) : bool :=
  if even_significand m e
  then QArith_base.Qle_bool (lower m e) v && QArith_base.Qle_bool v (upper m e)
  else q_lt (lower m e) v && q_lt v (upper m e).

Fixpoint adjust_down (fuel : nat) (x : QArith_base.Q) (g : Z) : Z :=
  match fuel with
  | O => g
  | S fuel' => if QArith_base.Qle_bool (pow 10 g) x then g else adjust_down fuel' x (g - 1)
  end.

Fixpoint adjust_up (fuel : nat) (x : QArith_base.Q) (g : Z) : Z :=
  match fuel with
  | O => g
  | S fuel' =>
      if QArith_base.Qle_bool (pow 10 (g + 1)) x then adjust_up fuel' x (g + 1) else g
  end.

(** The n with 10^(n-1) <= m * 2^e < 10^n, found from an estimate by
    the number of bits. *)
Definition magnitude (m : positive) (e : Z) : Z :=
  let x := bin_value m e in
  let guess := ((bits m + e - 1) * 30103 / 100000)%Z in
  adjust_up 4 x (adjust_down 4 x guess) + 1.

(** The k-digit s for which s * 10^(n-k) rounds to the double: the two
    next to the double and the two ends of the k-digit range are enough
    to hold the closest. *)
Definition candidates (m : positive) (e : Z) (k n : Z) : list (Z * Z) :=
  let p := (n - k)%Z in
  let t := Qround.Qfloor (QArith_base.Qmult (bin_value m e) (pow 10 (- p))) in
  filter
    (fun sp =>
       (10 ^ (k - 1) <=? fst sp)%Z && (fst sp <? 10 ^ k)%Z
       && rounds_to m e (QArith_base.Qmult (QArith_base.inject_Z (fst sp)) (pow 10 p)))
    [(t, p); ((t + 1)%Z, p); ((10 ^ (k - 1))%Z, p); ((10 ^ k - 1)%Z, p)].

Definition distance (m : positive) (e : Z) (sp : Z * Z) : QArith_base.Q :=
  Qabs.Qabs
    (QArith_base.Qminus
       (QArith_base.Qmult (QArith_base.inject_Z (fst sp)) (pow 10 (snd sp)))
       (bin_value m e)).

(** [a] is to be chosen before [b]. *)
Definition closer (m : positive) (e : Z) (a b : Z * Z) : bool :=
  q_lt (distance m e a) (distance m e b)
  || (QArith_base.Qeq_bool (distance m e a) (distance m e b)
      && Z.even (fst a) && negb (Z.even (fst b))).

Definition closest (m : positive) (e : Z) (l : list (Z * Z)) : option (Z * Z) :=
  fold_left
    (fun acc c =>
       match acc with
       | None => Some c
       | Some a => if closer m e c a then Some c else Some a
       end) l None.

(** (s, n) for the least k from [k] on; 17 digits always do. *)
Fixpoint shortest_from (fuel : nat) (m : positive) (e : Z) (k : Z) : Z * Z :=
  match fuel with
  | O => (0%Z, 0%Z)
  | S fuel' =>
      let n0 := magnitude m e in
      match closest m e
              (candidates m e k (n0 - 1) ++ candidates m e k n0
               ++ candidates m e k (n0 + 1))%list with
      | Some (s, p) => (s, (p + k)%Z)
      | None => shortest_from fuel' m e (k + 1)
      end
  end.

Definition shortest (m : positive) (e : Z) : Z * Z := shortest_from 17 m e 1.

(** *** Writing the decimal *)

Fixpoint zeros (n : nat) : string :=
  match n with
  | O => EmptyString
  | S n' => String "0" (zeros n')
  end.

Fixpoint take (n : nat) (s : string) : string :=
  match n, s with
  | S n', String c r => String c (take n' r)
  | _, _ => EmptyString
  end.

Fixpoint drop (n : nat) (s : string) : string :=
  match n, s with
  | S n', String _ r => drop n' r
  | _, _ => s
  end.

Definition decimal_of_Z (z : Z) : string := NilZero.string_of_int (Z.to_int z).

(** The digits of s and n, written as the language writes them: plain
    up to 21 integer digits and down to six zeros after the point, with
    an exponent otherwise. *)
Definition format (digits : string) (n : Z) : string :=
  let k := Z.of_nat (String.length digits) in
  if ((k <=? n) && (n <=? 21))%Z then digits ++ zeros (Z.to_nat (n - k))
  else if ((0 <? n) && (n <=? 21))%Z then
    take (Z.to_nat n) digits ++ "." ++ drop (Z.to_nat n) digits
  else if ((-6 <? n) && (n <=? 0))%Z then "0." ++ zeros (Z.to_nat (- n)) ++ digits
  else
    (match digits with
     | String d EmptyString => String d EmptyString
     | String d rest => String d ("." ++ rest)
     | EmptyString => EmptyString
     end)
    ++ "e" ++ (if (n - 1 <? 0)%Z then "-" else "+") ++ decimal_of_Z (Z.abs (n - 1)).

(** [`${n}`]. *)
Definition Number_toString (n : number) : string :=
  match n with
  | Int z => NilZero.string_of_int (Z.to_int z)
  | NaN => "NaN"
  | Infinity => "Infinity"
  | NegInfinity => "-Infinity"
  | Bin neg m e =>
      (if neg then "-" else "")
      ++ format (decimal_of_Z (fst (shortest m e))) (snd (shortest m e))
  end.

(** [Number(str)] on what a number input hands over: the empty string
    (the field is empty or holds no number) is 0, a run of digits with
    an optional minus sign is that integer (the sign of a zero is not
    kept).  [None]: a string this definition does not convert (a
    fraction, an exponent, more digits than a double keeps). *)
Definition Number_of_string (str : string) : option number :=
  if str =? "" then Some (Int 0)
  else
    match NilZero.int_of_string str with
    | Some i =>
        let z := Z.of_int i in
        if (Z.abs z <=? 2 ^ 53)%Z then Some (Int z) else None
    | None => None
    end.

(** ** State *)

Record File := { name : string }.

Record State := {
  file : option File;
  diet : string;
  userType : string;
  numPeople : number;
  selectedMeals : list (string * bool);
  pantryOption : string;
  mealPlan : value;
  loading : bool;
  error : option string
}.

Definition initial : State := {|
  file := None;
  diet := "";
  userType := "";
  numPeople := Int 1;
  selectedMeals :=
    [("breakfast", false); ("brunch", false); ("lunch", false);
     ("snack", false); ("dinner", false)];
  pantryOption := "pantryOnly";
  mealPlan := VNull;
  loading := false;
  error := None
|}.

Definition dietOptions : list string :=
  [""; "Vegetarian"; "Keto"; "Non-Vegetarian"; "Vegan"; "Mediterranean"].
Definition userTypeOptions : list string :=
  [""; "Bachelor"; "Housewife"; "Working Professional"; "Student"; "Kid"].
Definition mealTimeOptions : list string :=
  ["breakfast"; "brunch"; "lunch"; "snack"; "dinner"].

Definition setFile (x : option File) (s : State) : State :=
  {| file := x; diet := diet s; userType := userType s; numPeople := numPeople s;
     selectedMeals := selectedMeals s; pantryOption := pantryOption s;
     mealPlan := mealPlan s; loading := loading s; error := error s |}.
Definition setDiet (x : string) (s : State) : State :=
  {| file := file s; diet := x; userType := userType s; numPeople := numPeople s;
     selectedMeals := selectedMeals s; pantryOption := pantryOption s;
     mealPlan := mealPlan s; loading := loading s; error := error s |}.
Definition setUserType (x : string) (s : State) : State :=
  {| file := file s; diet := diet s; userType := x; numPeople := numPeople s;
     selectedMeals := selectedMeals s; pantryOption := pantryOption s;
     mealPlan := mealPlan s; loading := loading s; error := error s |}.
Definition setNumPeople (x : number) (s : State) : State :=
  {| file := file s; diet := diet s; userType := userType s; numPeople := x;
     selectedMeals := selectedMeals s; pantryOption := pantryOption s;
     mealPlan := mealPlan s; loading := loading s; error := error s |}.
Definition setSelectedMeals (f : list (string * bool) -> list (string * bool))
  (s : State) : State :=
  {| file := file s; diet := diet s; userType := userType s; numPeople := numPeople s;
     selectedMeals := f (selectedMeals s); pantryOption := pantryOption s;
     mealPlan := mealPlan s; loading := loading s; error := error s |}.
Definition setPantryOption (x : string) (s : State) : State :=
  {| file := file s; diet := diet s; userType := userType s; numPeople := numPeople s;
     selectedMeals := selectedMeals s; pantryOption := x;
     mealPlan := mealPlan s; loading := loading s; error := error s |}.
Definition setMealPlan (x : value) (s : State) : State :=
  {| file := file s; diet := diet s; userType := userType s; numPeople := numPeople s;
     selectedMeals := selectedMeals s; pantryOption := pantryOption s;
     mealPlan := x; loading := loading s; error := error s |}.
Definition setLoading (x : bool) (s : State) : State :=
  {| file := file s; diet := diet s; userType := userType s; numPeople := numPeople s;
     selectedMeals := selectedMeals s; pantryOption := pantryOption s;
     mealPlan := mealPlan s; loading := x; error := error s |}.
Definition setError (x : option string) (s : State) : State :=
  {| file := file s; diet := diet s; userType := userType s; numPeople := numPeople s;
     selectedMeals := selectedMeals s; pantryOption := pantryOption s;
     mealPlan := mealPlan s; loading := loading s; error := x |}.

(** ** Field handlers *)

(** [files]: the list the file input reports ([null] reads as empty). *)
Definition handleFileChange (files : list File) (s : State) : State :=
  match files with
  | f :: _ => setFile (Some f) s
  | [] => s
  end.

Definition handleMealTimeChange (name : string) (checked : bool) (s : State) : State :=
  setSelectedMeals (fun prev => obj_set name checked prev) s.

(** [onChange] of the people field; [None] as in [Number_of_string]. *)
Definition handleNumPeopleChange (v : string) (s : State) : option State :=
  match Number_of_string v with
  | Some n => Some (setNumPeople n s)
  | None => None
  end.

(** A run of checkbox events. *)
Definition toggles (evs : list (string * bool)) (s : State) : State :=
  fold_left (fun st ev => handleMealTimeChange (fst ev) (snd ev) st) evs s.

Definition atLeastOneMealSelected (s : State) : bool :=
  existsb (fun v => v) (values (selectedMeals s)).

(** [!file || !diet || !userType || !atLeastOneMealSelected]. *)
Definition missing_fields (s : State) : bool :=
  match file s with Some _ => false | None => true end
  || (diet s =? "")
  || (userType s =? "")
  || negb (atLeastOneMealSelected s).

(** ** The prompt *)

Definition selected (sm : list (string * bool)) (meal : string) : bool :=
  match assoc meal sm with
  | Some b => b
  | None => false
  end.

Definition selectedMealNames (s : State) : string :=
  String.concat ", " (filter (selected (selectedMeals s)) (keys (selectedMeals s))).

Definition strict_clause : string :=
  "Strictly use only the ingredients from the pantry list provided.".
Definition shopping_clause : string :=
  "You can suggest ingredients that are not in the pantry list. If you do, please provide a separate 'shoppingList' of items to buy for each recipe that requires them.".

Definition pantryInstruction (s : State) : string :=
  if pantryOption s =? "allowNew" then shopping_clause else strict_clause.

Definition nl : string := String "010"%char EmptyString.
Definition indent : string := "        ".

(** The fixed text of the template, between the holes. *)
Definition t_user : string := nl ++ indent ++ "I am a ".
Definition t_people : string := ". I am planning meals for ".
Definition t_diet : string := " person(s)." ++ nl ++ indent ++ "My diet preference is ".
Definition t_meals : string :=
  "." ++ nl ++ indent ++ "Please suggest recipes for the following meals: ".
Definition t_pantry : string :=
  "." ++ nl ++ indent ++ "The pantry and equipment list is as follows:" ++ nl ++ indent.
Definition t_policy : string := nl ++ indent ++ nl ++ indent.
Definition t_end : string :=
  nl ++ indent ++ nl ++ indent
  ++ "Provide the recipe name, a list of ingredients, simple instructions, and the meal type for each recipe."
  ++ nl ++ "      ".

Definition fixed_texts : list string :=
  [t_user; t_people; t_diet; t_meals; t_pantry; t_policy].

Definition prompt (s : State) (fileContent : string) : string :=
  t_user ++ userType s
  ++ t_people ++ Number_toString (numPeople s)
  ++ t_diet ++ diet s
  ++ t_meals ++ selectedMealNames s
  ++ t_pantry ++ fileContent
  ++ t_policy ++ pantryInstruction s
  ++ t_end.

(** ** The request *)

Inductive schema :=
| SString
| SArray (items : schema)
| SObject (properties : list (string * schema)) (required : list string)
| SDescribed (description : string) (sc : schema).

Definition meal_schema : schema :=
  SObject
    [("mealType", SString);
     ("recipeName", SString);
     ("ingredients", SArray SString);
     ("instructions", SString);
     ("shoppingList",
       SDescribed "List of ingredients to buy. Only include if new ingredients are needed."
         (SArray SString))]
    ["mealType"; "recipeName"; "ingredients"; "instructions"].

Definition responseSchema : schema :=
  SObject [("meals", SArray meal_schema)] [].

Record request := {
  model : string;
  contents : string;
  responseMimeType : string;
  config_responseSchema : schema
}.

Definition make_request (p : string) : request :=
  {| model := "gemini-2.5-flash";
     contents := p;
     responseMimeType := "application/json";
     config_responseSchema := responseSchema |}.

(** ** Effects *)

(** What the world answers during one submission:
    [new GoogleGenAI({ apiKey: process.env.API_KEY })], reading the key
    included; the [FileReader] ([onload] with the text, or [onerror]);
    [ai.models.generateContent], which resolves with a response whose
    [text] is a string or [undefined], or rejects. *)
Record Env := {
  new_GoogleGenAI : completion unit;
  readAsText : File -> completion string;
  generateContent : request -> completion (option string)
}.

(** What a handler does, in order: state setters and calls out. *)
Inductive action :=
| PreventDefault
| SetError (e : option string)
| SetLoading (b : bool)
| SetMealPlan (v : value)
| NewGoogleGenAI
| ReadAsText (f : File)
| GenerateContent (req : request)
| ConsoleError (e : exn).

(** A computation: the actions done so far, and how it ended. *)
Definition M (A : Type) : Type := (list action * completion A)%type.

Definition ret {A} (a : A) : M A := ([], Normal a).

Definition bindM {A B} (m : M A) (k : A -> M B) : M B :=
  match m with
  | (tr, Normal a) => let (tr', r) := k a in ((tr ++ tr')%list, r)
  | (tr, Throw e) => (tr, Throw e)
  end.

Notation "x <- m ;; k" := (bindM m (fun x => k))
  (at level 61, m at next level, right associativity).
Notation "m ;; k" := (bindM m (fun _ => k))
  (at level 61, right associativity).

Definition emit (a : action) : M unit := ([a], Normal tt).
Definition lift {A} (c : completion A) : M A := ([], c).
Definition call {A} (a : action) (c : completion A) : M A := ([a], c).

(** [try { body } catch (e) { handler } finally { final }]. *)
Definition try_catch_finally (body : M unit) (handler : exn -> M unit) (final : M unit)
  : M unit :=
  let caught :=
    match body with
    | (tr, Normal a) => (tr, Normal a)
    | (tr, Throw e) => let (tr', r) := handler e in ((tr ++ tr')%list, r)
    end in
  let (tr, r) := caught in
  let (tr', r') := final in
  ((tr ++ tr')%list, match r' with Normal _ => r | Throw e => Throw e end).

(** ** Submit *)

Definition validation_message : string := "Please fill in all the required fields.".
Definition generation_message : string :=
  "Sorry, we couldn't generate a meal plan. Please check the file format or try again later.".

Definition fileToText (env : Env) (f : option File) : M string :=
  match f with
  | Some f => call (ReadAsText f) (readAsText env f)
  | None => lift (Throw TypeError)
  end.

(** The body of the [try]. *)
Definition generate (env : Env) (s : State) : M unit :=
  call NewGoogleGenAI (new_GoogleGenAI env) ;;
  fileContent <- fileToText env (file s) ;;
  let req := make_request (prompt s fileContent) in
  text <- call (GenerateContent req) (generateContent env req) ;;
  parsedPlan <- lift (JSON.parse (ToString text)) ;;
  meals <- lift (Get parsedPlan "meals") ;;
  emit (SetMealPlan meals).

Definition handleSubmit (env : Env) (s : State) : M unit :=
  emit PreventDefault ;;
  if missing_fields s then
    emit (SetError (Some validation_message))
  else
    emit (SetLoading true) ;;
    emit (SetError None) ;;
    emit (SetMealPlan VNull) ;;
    try_catch_finally
      (generate env s)
      (fun e =>
         emit (ConsoleError e) ;;
         emit (SetError (Some generation_message)))
      (emit (SetLoading false)).

Definition apply (s : State) (a : action) : State :=
  match a with
  | SetError e => setError e s
  | SetLoading b => setLoading b s
  | SetMealPlan v => setMealPlan v s
  | PreventDefault | NewGoogleGenAI | ReadAsText _ | GenerateContent _ | ConsoleError _ => s
  end.

Definition run (s : State) (acts : list action) : State := fold_left apply acts s.

(** The states the component goes through, one per action. *)
Fixpoint states (s : State) (acts : list action) : list State :=
  match acts with
  | [] => []
  | a :: r => apply s a :: states (apply s a) r
  end.

(** The state a submission leaves when nothing else happens to the
    component before it is over: the trace applied in one go. *)
Definition submit (env : Env) (s : State) : State := run s (fst (handleSubmit env s)).

Definition calls_out (a : action) : bool :=
  match a with
  | NewGoogleGenAI | ReadAsText _ | GenerateContent _ => true
  | _ => false
  end.

Definition sets_loading (a : action) : bool :=
  match a with
  | SetLoading _ => true
  | _ => false
  end.

(** ** What the component shows *)

(** The element tree [App] returns: elements, literal text, a value put
    in as a child ([{expr}]), and an array of children. *)
Inductive node :=
| Elem (tag : string) (props : list (string * value)) (children : list node)
| Text (s : string)
| Val (v : value)
| Items (l : list node).

Definition prop (n : node) (k : string) : option value :=
  match n with
  | Elem _ props _ => assoc k props
  | _ => None
  end.

Definition is_element (n : node) : bool :=
  match n with
  | Elem _ _ _ => true
  | _ => false
  end.

Definition index_value (i : nat) : value :=
  VNumber {| d_neg := false; d_mant := N.of_nat i; d_exp := 0 |}.

(** [!file || !diet || !userType || !atLeastOneMealSelected || loading]. *)
Definition submit_disabled (s : State) : bool := missing_fields s || loading s.

Definition submit_button (s : State) : node :=
  Elem "button"
    [("type", VString "submit"); ("className", VString "btn btn-primary");
     ("disabled", VBool (submit_disabled s))]
    [Val (VString (if loading s then "Generating..." else "Generate Meal Plan"))].

(** [{loading && (...)}]. *)
Definition loader (s : State) : node :=
  if loading s then
    Elem "div"
      [("className", VString "loader-container"); ("role", VString "status");
       ("aria-label", VString "Loading meal plan")]
      [Elem "div" [("className", VString "loader")] []]
  else Val (VBool false).

(** [{error && <p ...>{error}</p>}]. *)
Definition error_alert (s : State) : node :=
  match error s with
  | None => Val VNull
  | Some e =>
      if e =? "" then Val (VString e)
      else Elem "p" [("className", VString "error-message"); ("role", VString "alert")]
             [Val (VString e)]
  end.

Notation "x <~ c ;; k" := (bind c (fun x => k))
  (at level 61, c at next level, right associativity).

Section Results.

(** [v > 0] as the language decides it for a value of any kind.  Only
    an object that carries a [length] of its own is ever asked. *)
Variable gt_zero : value -> bool.

(** [v.length > 0] for a truthy [v]. *)
Definition length_gt_zero (v : value) : completion bool :=
  match v with
  | VUndefined | VNull => Throw TypeError
  | VArray items => Normal (0 <? List.length items)%nat
  | VString s => Normal (0 <? String.length s)%nat
  | VObject ms =>
      Normal (gt_zero (match assoc "length" ms with Some x => x | None => VUndefined end))
  | VBool _ | VNumber _ => Normal false
  end.

(** [(item, index) => <li key={index}>{item}</li>]. *)
Definition li (item : value) (index : nat) : completion node :=
  Normal (Elem "li" [("key", index_value index)] [Val item]).

(** [{mealData.shoppingList && mealData.shoppingList.length > 0 && (...)}]. *)
Definition shopping_list (shoppingList : value) : completion node :=
  if ToBoolean shoppingList then
    positive <~ length_gt_zero shoppingList ;;
    if positive : bool then
      items <~ call_map shoppingList li ;;
      Normal (Elem "div" [("className", VString "shopping-list")]
                [Elem "h5" [] [Text "Shopping List"];
                 Elem "ul" [] [Items items]])
    else Normal (Val (VBool false))
  else Normal (Val shoppingList).

(** The callback of [mealPlan.map]. *)
Definition render_meal (mealData : value) (_ : nat) : completion node :=
  key <~ Get mealData "recipeName" ;;
  mealType <~ Get mealData "mealType" ;;
  recipeName <~ Get mealData "recipeName" ;;
  shoppingList <~ Get mealData "shoppingList" ;;
  shopping <~ shopping_list shoppingList ;;
  ingredients <~ Get mealData "ingredients" ;;
  items <~ call_map ingredients li ;;
  instructions <~ Get mealData "instructions" ;;
  Normal
    (Elem "div" [("key", key); ("className", VString "meal-card")]
       [Elem "h3" [] [Val mealType];
        Elem "h4" [] [Val recipeName];
        shopping;
        Elem "h5" [] [Text "Ingredients"];
        Elem "ul" [] [Items items];
        Elem "h5" [] [Text "Instructions"];
        Elem "p" [] [Val instructions]]).

(** [{mealPlan && (<section ...>...</section>)}]. *)
Definition results (s : State) : completion node :=
  if ToBoolean (mealPlan s) then
    cards <~ call_map (mealPlan s) render_meal ;;
    Normal
      (Elem "section"
         [("className", VString "results-section");
          ("aria-labelledby", VString "results-heading")]
         [Elem "h2" [("id", VString "results-heading")]
            [Text "Your Personalized Meal Plan"];
          Elem "div" [("className", VString "meals-grid")] [Items cards]])
  else Normal (Val (mealPlan s)).

(** What follows the form inside [<main>]. *)
Definition output (s : State) : completion (list node) :=
  r <~ results s ;;
  Normal [loader s; error_alert s; r].

End Results.

(** ** The reply as the declared types describe it *)

(** A value meets a schema: the required properties are there, and each
    declared property that is there has its declared shape. *)
Fixpoint conforms (sc : schema) (v : value) : bool :=
  match sc with
  | SString => match v with VString _ => true | _ => false end
  | SArray it => match v with VArray vs => forallb (conforms it) vs | _ => false end
  | SObject props required =>
      match v with
      | VObject ms =>
          forallb (fun k => match assoc k ms with Some _ => true | None => false end) required
          && forallb (fun p => match assoc (fst p) ms with
                               | Some x => conforms (snd p) x
                               | None => true
                               end) props
      | _ => false
      end
  | SDescribed _ sc' => conforms sc' v
  end.

(** [interface Meal]. *)
Record Meal := {
  mealType : string;
  recipeName : string;
  ingredients : list string;
  instructions : string;
  shoppingList : option (list string)
}.

Definition as_string (v : value) : option string :=
  match v with
  | VString s => Some s
  | _ => None
  end.

Fixpoint as_strings (vs : list value) : option (list string) :=
  match vs with
  | [] => Some []
  | v :: r =>
      match as_string v, as_strings r with
      | Some s, Some l => Some (s :: l)
      | _, _ => None
      end
  end.

Definition as_string_array (v : value) : option (list string) :=
  match v with
  | VArray vs => as_strings vs
  | _ => None
  end.

Definition own (ms : list (string * value)) (k : string) : value :=
  match assoc k ms with
  | Some x => x
  | None => VUndefined
  end.

(** The [Meal] a parsed object is, read field by field. *)
Definition as_Meal (v : value) : option Meal :=
  match v with
  | VObject ms =>
      match as_string (own ms "mealType"), as_string (own ms "recipeName"),
            as_string_array (own ms "ingredients"), as_string (own ms "instructions") with
      | Some a, Some b, Some c, Some d =>
          match assoc "shoppingList" ms with
          | None => Some {| mealType := a; recipeName := b; ingredients := c;
                            instructions := d; shoppingList := None |}
          | Some x =>
              match as_string_array x with
              | Some l => Some {| mealType := a; recipeName := b; ingredients := c;
                                  instructions := d; shoppingList := Some l |}
              | None => None
              end
          end
      | _, _, _, _ => None
      end
  | _ => None
  end.

Fixpoint as_Meals (vs : list value) : option (list Meal) :=
  match vs with
  | [] => Some []
  | v :: r =>
      match as_Meal v, as_Meals r with
      | Some m, Some l => Some (m :: l)
      | _, _ => None
      end
  end.

(** ** The card of a meal, as the specification words it

    Meal type header, recipe name, the shopping list only if it is there
    and not empty, the ingredients in order, the instructions. *)

Fixpoint bullets (l : list string) (i : nat) : list node :=
  match l with
  | [] => []
  | x :: r => Elem "li" [("key", index_value i)] [Val (VString x)] :: bullets r (S i)
  end.

Definition shopping_view (m : Meal) : node :=
  match shoppingList m with
  | None => Val VUndefined
  | Some [] => Val (VBool false)
  | Some l =>
      Elem "div" [("className", VString "shopping-list")]
        [Elem "h5" [] [Text "Shopping List"];
         Elem "ul" [] [Items (bullets l 0)]]
  end.

Definition card (m : Meal) : node :=
  Elem "div" [("key", VString (recipeName m)); ("className", VString "meal-card")]
    [Elem "h3" [] [Val (VString (mealType m))];
     Elem "h4" [] [Val (VString (recipeName m))];
     shopping_view m;
     Elem "h5" [] [Text "Ingredients"];
     Elem "ul" [] [Items (bullets (ingredients m) 0)];
     Elem "h5" [] [Text "Instructions"];
     Elem "p" [] [Val (VString (instructions m))]].

Definition results_view (ms : list Meal) : node :=
  Elem "section"
    [("className", VString "results-section");
     ("aria-labelledby", VString "results-heading")]
    [Elem "h2" [("id", VString "results-heading")]
       [Text "Your Personalized Meal Plan"];
     Elem "div" [("className", VString "meals-grid")] [Items (map card ms)]].

(** ** Text search *)

(** [s.includes(sub)]. *)
Fixpoint includes (sub s : string) : bool :=
  prefix sub s
  || match s with
     | EmptyString => false
     | String _ r => includes sub r
     end.

Fixpoint chars (s : string) : list ascii :=
  match s with
  | EmptyString => []
  | String c r => c :: chars r
  end.

Definition has_char (c : ascii) (s : string) : bool :=
  existsb (Ascii.eqb c) (chars s).

(** The first character of [w] occurs in [a]. *)
Definition first_in (w a : string) : bool :=
  match w with
  | String c _ => has_char c a
  | EmptyString => true
  end.

(** The first character of [t] occurs in [w] after its first one. *)
Definition head_in_tail (t w : string) : bool :=
  match t, w with
  | String d _, String _ w' => has_char d w'
  | _, _ => true
  end.

(** ** A session *)

(** What can happen to the form.  [Submit env]: a submission, followed
    to its end in the world [env]. *)
Inductive event :=
| FileChange (files : list File)
| DietChange (v : string)
| UserTypeChange (v : string)
| NumPeopleChange (n : number)
| MealTimeChange (name : string) (checked : bool)
| PantryOptionChange (v : string)
| Submit (env : Env).

Definition handle (s : State) (ev : event) : State :=
  match ev with
  | FileChange files => handleFileChange files s
  | DietChange v => setDiet v s
  | UserTypeChange v => setUserType v s
  | NumPeopleChange n => setNumPeople n s
  | MealTimeChange name checked => handleMealTimeChange name checked s
  | PantryOptionChange v => setPantryOption v s
  | Submit env => submit env s
  end.

Definition session (evs : list event) : State := fold_left handle evs initial.

(** ** What one submission amounts to *)

(** The value the [try] body hands to [setMealPlan], or what it throws. *)
Definition reply (env : Env) (s : State) : completion value :=
  _ <~ new_GoogleGenAI env ;;
  fileContent <~ match file s with
                 | Some f => readAsText env f
                 | None => Throw TypeError
                 end ;;
  text <~ generateContent env (make_request (prompt s fileContent)) ;;
  parsedPlan <~ JSON.parse (ToString text) ;;
  Get parsedPlan "meals".

(** The ways the [try] body fails. *)
Inductive fails (env : Env) (s : State) : Prop :=
| fails_client e :
    new_GoogleGenAI env = Throw e -> fails env s
| fails_read f e :
    file s = Some f -> readAsText env f = Throw e -> fails env s
| fails_service f fileContent e :
    file s = Some f -> readAsText env f = Normal fileContent ->
    generateContent env (make_request (prompt s fileContent)) = Throw e ->
    fails env s
| fails_syntax f fileContent text e :
    file s = Some f -> readAsText env f = Normal fileContent ->
    generateContent env (make_request (prompt s fileContent)) = Normal text ->
    JSON.parse (ToString text) = Throw e ->
    fails env s
| fails_null f fileContent text :
    file s = Some f -> readAsText env f = Normal fileContent ->
    generateContent env (make_request (prompt s fileContent)) = Normal text ->
    JSON.parse (ToString text) = Normal VNull ->
    fails env s.

Definition sets_state (a : action) : bool :=
  match a with
  | SetError _ | SetLoading _ | SetMealPlan _ => true
  | _ => false
  end.

(** The clauses up to their first full stop. *)
Definition strict_opening : string :=
  "Strictly use only the ingredients from the pantry list provided".
Definition shopping_opening : string :=
  "You can suggest ingredients that are not in the pantry list".

(** None of the texts that the user brings into the prompt holds [w]. *)
Definition clean (w : string) (s : State) (fileContent : string) : Prop :=
  includes w (userType s) = false
  /\ includes w (diet s) = false
  /\ includes w (selectedMealNames s) = false
  /\ includes w fileContent = false.

Definition meals_line (s : State) : string :=
  "Please suggest recipes for the following meals: " ++ selectedMealNames s ++ ".".
Definition people_line (s : State) : string :=
  "I am planning meals for " ++ Number_toString (numPeople s) ++ " person(s).".

(** ** Sample inputs *)

Definition pantry_file : File := {| name := "pantry.txt" |}.

(** File chosen, user type and diet picked, snack then breakfast ticked. *)
Definition ready : State :=
  toggles [("snack", true); ("breakfast", true)]
    (setUserType "Student" (setDiet "Vegan" (handleFileChange [pantry_file] initial))).

(** A world where the file reads as [fileContent] and the service
    answers [text]. *)
Definition answering (fileContent : string) (text : option string) : Env :=
  {| new_GoogleGenAI := Normal tt;
     readAsText := fun _ => Normal fileContent;
     generateContent := fun _ => Normal text |}.

Definition stir_fry_text : string :=
  JSON.dq "{'meals':[{'mealType':'dinner','recipeName':'Stir Fry','ingredients':['rice','egg'],'instructions':'Cook rice, fry egg, mix.'}]}".

(** The plan of [stir_fry_text] on the page, then every meal time
    unticked. *)
Definition served : State := submit (answering "rice, egg" (Some stir_fry_text)) ready.
Definition unticked : State :=
  toggles [("snack", false); ("breakfast", false)] served.

(** New ingredients allowed, and a pantry file that holds the sentence
    of the other policy. *)
Definition allowing : State := setPantryOption "allowNew" ready.

(** A world where nothing can be read or reached. *)
Definition offline : Env :=
  {| new_GoogleGenAI := Normal tt;
     readAsText := fun _ => Normal "rice, egg";
     generateContent := fun _ => Throw (HostError "network") |}.

Definition mismatch_text : string := JSON.dq "{'meals':'none'}".

Definition two_meals_text : string :=
  JSON.dq "{'meals': [{'recipeName':'Stir Fry','mealType':'dinner','ingredients':['rice','egg'],'instructions':'Cook rice, fry egg, mix.','shoppingList':['soy sauce']}, {'mealType':'snack','recipeName':'Rice Cake','ingredients':['rice'],'instructions':'Press and toast.','shoppingList':[]}]}".

Definition stir_fry : value :=
  VObject
    [("mealType", VString "dinner");
     ("recipeName", VString "Stir Fry");
     ("ingredients", VArray [VString "rice"; VString "egg"]);
     ("instructions", VString "Cook rice, fry egg, mix.")].

(** ** The form and its controls *)

(** The fields the form owns. *)
Definition form (s : State)
  : option File * string * string * number * list (string * bool) * string :=
  (file s, diet s, userType s, numPeople s, selectedMeals s, pantryOption s).

(** [checked={selectedMeals[meal]}] of the checkbox of [meal]. *)
Definition checkbox_checked (s : State) (meal : string) : value :=
  match assoc meal (selectedMeals s) with
  | Some b => VBool b
  | None => VUndefined
  end.

(** [checked={pantryOption === v}] of the radio button of value [v]. *)
Definition radio_checked (s : State) (v : string) : bool := pantryOption s =? v.

(** The event carries a value that its control offers: an option of the
    select, the name of a checkbox, the value of a radio button. *)
Definition offered (ev : event) : Prop :=
  match ev with
  | DietChange v => In v dietOptions
  | UserTypeChange v => In v userTypeOptions
  | MealTimeChange name _ => In name mealTimeOptions
  | PantryOptionChange v => In v ["pantryOnly"; "allowNew"]
  | FileChange _ | NumPeopleChange _ | Submit _ => True
  end.

(** What holds of the form between the events of a session. *)
Definition well_formed (s : State) : Prop :=
  keys (selectedMeals s) = mealTimeOptions
  /\ In (pantryOption s) ["pantryOnly"; "allowNew"]
  /\ In (diet s) dietOptions
  /\ In (userType s) userTypeOptions.

(** The state of the latest event on the checkbox of [meal], if any. *)
Fixpoint last_tick (evs : list (string * bool)) (meal : string) : option bool :=
  match evs with
  | [] => None
  | ev :: r =>
      match last_tick r meal with
      | Some b => Some b
      | None => if fst ev =? meal then Some (snd ev) else None
      end
  end.

(** An object with an array under [ingredients]. *)
Definition has_ingredients (v : value) : Prop :=
  exists members items,
    v = VObject members /\ assoc "ingredients" members = Some (VArray items).

(** An event of a field of the form, not a submission. *)
Definition field_event (ev : event) : bool :=
  match ev with
  | Submit _ => false
  | _ => true
  end.

(** Each action of a handler with the state it finds. *)
Fixpoint steps (s : State) (acts : list action) : list (State * action) :=
  match acts with
  | [] => []
  | a :: r => (s, a) :: steps (apply s a) r
  end.

(** ** A submission with the form edited meanwhile *)

(** [handleSubmit] is suspended at its two [await]s, once the read of
    the file and once the call of the service has been started.  No
    field is disabled meanwhile, so events of the fields can come in
    there. *)
Definition suspends (a : action) : bool :=
  match a with
  | ReadAsText _ | GenerateContent _ => true
  | _ => false
  end.

(** The actions of a handler applied one by one, each to the state the
    component then has, where the events [edits] holds are handled at
    the suspensions: its first batch at the first, and so on. *)
Fixpoint run_editing (edits : list (list event)) (s : State) (acts : list action)
  : State :=
  match acts with
  | [] => s
  | a :: r =>
      if suspends a then
        match edits with
        | evs :: rest => run_editing rest (fold_left handle evs (apply s a)) r
        | [] => run_editing [] (apply s a) r
        end
      else run_editing edits (apply s a) r
  end.

(** The state a submission of the form [s] leaves.  The handler keeps
    the fields it was created with; its setters act on the state of
    their time. *)
Definition submit_editing (env : Env) (edits : list (list event)) (s : State) : State :=
  run_editing edits s (fst (handleSubmit env s)).

(** The loading indicator, as [loader] shows it. *)
Definition spinner : node :=
  Elem "div"
    [("className", VString "loader-container"); ("role", VString "status");
     ("aria-label", VString "Loading meal plan")]
    [Elem "div" [("className", VString "loader")] []].

End Planner.


Import Planner.

(* ================================================================== *)
(** * Properties *)
(* ================================================================== *)

Ltac split_and :=
  repeat match goal with
         | H : _ && _ = true |- _ => apply andb_true_iff in H; destruct H
         end.

(** ** The submit precondition *)

Lemma atLeastOneMealSelected_iff (s : State) :
  atLeastOneMealSelected s = true <-> exists meal, In (meal, true) (selectedMeals s).
Proof.
  unfold atLeastOneMealSelected, values.
  rewrite existsb_exists. split.
  - intros [v [Hin Hv]]. subst v.
    apply in_map_iff in Hin. destruct Hin as [[meal b] [Hb Hin]].
    simpl in Hb. subst b. now exists meal.
  - intros [meal Hin]. exists true. split; [|reflexivity].
    apply in_map_iff. now exists (meal, true).
Qed.

Lemma missing_fields_false_iff (s : State) :
  missing_fields s = false <->
  file s <> None /\ diet s <> "" /\ userType s <> ""
  /\ exists meal, In (meal, true) (selectedMeals s).
Proof.
  unfold missing_fields. rewrite !orb_false_iff, negb_false_iff.
  rewrite atLeastOneMealSelected_iff, !String.eqb_neq.
  destruct (file s); intuition congruence.
Qed.

Lemma missing_fields_true_iff (s : State) :
  missing_fields s = true <->
  file s = None \/ diet s = "" \/ userType s = ""
  \/ forall meal, ~ In (meal, true) (selectedMeals s).
Proof.
  unfold missing_fields. rewrite !orb_true_iff, negb_true_iff, !String.eqb_eq.
  rewrite <- not_true_iff_false, atLeastOneMealSelected_iff.
  destruct (file s) as [f|]; split; intros H.
  - destruct H as [[[H|H]|H]|H]; try discriminate; auto.
    right; right; right. intros meal Hin. apply H. now exists meal.
  - destruct H as [H|[H|[H|H]]]; try discriminate; auto.
    right. intros [meal Hin]. exact (H meal Hin).
  - now left.
  - now left; left; left.
Qed.

(** C2 -- the submit button is enabled exactly when a file is chosen,
    diet and user type are not empty, some meal time is ticked and no
    request is in flight. *)
Theorem submit_enabled_iff (s : State) :
  prop (submit_button s) "disabled" = Some (VBool false) <->
  file s <> None /\ diet s <> "" /\ userType s <> ""
  /\ (exists meal, In (meal, true) (selectedMeals s))
  /\ loading s = false.
Proof.
  simpl. unfold submit_disabled. split.
  - intros H. injection H as H. apply orb_false_iff in H. destruct H as [Hm Hl].
    apply missing_fields_false_iff in Hm. tauto.
  - intros (Hf & Hd & Hu & Hm & Hl).
    assert (missing_fields s = false) as -> by (apply missing_fields_false_iff; tauto).
    now rewrite Hl.
Qed.

(** ** The shape of a submission *)

Lemma handleSubmit_missing (env : Env) (s : State) :
  missing_fields s = true ->
  handleSubmit env s = ([PreventDefault; SetError (Some validation_message)], Normal tt).
Proof.
  intros H. unfold handleSubmit. rewrite H. reflexivity.
Qed.

Lemma generate_reply (env : Env) (s : State) :
  match reply env s with
  | Normal meals =>
      exists tr, generate env s = ((tr ++ [SetMealPlan meals])%list, Normal tt)
                 /\ existsb sets_state tr = false
  | Throw e =>
      exists tr, generate env s = (tr, Throw e) /\ existsb sets_state tr = false
  end.
Proof.
  unfold reply, generate, fileToText, call, lift, emit, bindM, bind.
  destruct (new_GoogleGenAI env) as [[]|e]; [|now eexists].
  destruct (file s) as [f|]; [|now eexists].
  destruct (readAsText env f) as [fileContent|e]; [|now eexists].
  destruct (generateContent env _) as [text|e]; [|now eexists].
  destruct (JSON.parse (ToString text)) as [parsedPlan|e]; [|now eexists].
  destruct (Get parsedPlan "meals") as [meals|e]; [|now eexists].
  eexists [_; _; _]; split; reflexivity.
Qed.

Lemma handleSubmit_ready (env : Env) (s : State) :
  missing_fields s = false ->
  exists tr,
    existsb sets_state tr = false
    /\ fst (handleSubmit env s) =
       (PreventDefault :: SetLoading true :: SetError None :: SetMealPlan VNull
          :: tr ++ [match reply env s with
                    | Normal meals => SetMealPlan meals
                    | Throw _ => SetError (Some generation_message)
                    end; SetLoading false])%list.
Proof.
  intros H. unfold handleSubmit. rewrite H.
  pose proof (generate_reply env s) as G.
  destruct (reply env s) as [meals|e]; destruct G as [tr [G Htr]].
  - exists tr. split; [exact Htr|].
    unfold try_catch_finally, emit, bindM. rewrite G. simpl.
    now rewrite <- app_assoc.
  - exists (tr ++ [ConsoleError e])%list. split.
    + rewrite existsb_app, Htr. reflexivity.
    + unfold try_catch_finally, emit, bindM. rewrite G. simpl.
      now rewrite <- !app_assoc.
Qed.

Lemma run_app (s : State) (l1 l2 : list action) :
  run s (l1 ++ l2) = run (run s l1) l2.
Proof. apply fold_left_app. Qed.

Lemma run_quiet (tr : list action) (s : State) :
  existsb sets_state tr = false -> run s tr = s.
Proof.
  induction tr as [|a tr IH]; simpl; [reflexivity|].
  intros H. apply orb_false_iff in H. destruct H as [Ha Htr].
  destruct a; try discriminate; exact (IH Htr).
Qed.

Lemma states_quiet (tr : list action) (s : State) :
  existsb sets_state tr = false -> Forall (eq s) (states s tr).
Proof.
  induction tr as [|a tr IH]; simpl; [constructor|].
  intros H. apply orb_false_iff in H. destruct H as [Ha Htr].
  destruct a; try discriminate; constructor; simpl; auto.
Qed.

Lemma states_app (s : State) (l1 l2 : list action) :
  states s (l1 ++ l2) = (states s l1 ++ states (run s l1) l2)%list.
Proof.
  revert s. induction l1 as [|a l1 IH]; intros s; simpl; [reflexivity|].
  now rewrite IH.
Qed.

(** The state a submission leaves once the fields are all there. *)
Lemma submit_ready (env : Env) (s : State) :
  missing_fields s = false ->
  submit env s =
  setLoading false
    (match reply env s with
     | Normal meals => setMealPlan meals (setError None (setLoading true s))
     | Throw _ =>
         setError (Some generation_message)
           (setMealPlan VNull (setLoading true s))
     end).
Proof.
  intros H. unfold submit.
  destruct (handleSubmit_ready env s H) as [tr [Htr ->]].
  cbn [run fold_left apply].
  change (fold_left apply ?l ?x) with (run x l).
  rewrite run_app, (run_quiet tr) by exact Htr.
  destruct (reply env s); reflexivity.
Qed.

Lemma submit_missing (env : Env) (s : State) :
  missing_fields s = true ->
  submit env s = setError (Some validation_message) s.
Proof.
  intros H. unfold submit. now rewrite handleSubmit_missing.
Qed.

(** ** Validation failure *)

(** C3 -- with the file, the diet, the user type or every meal time
    missing, submit sets the validation message, reads no file, calls
    nothing outside and leaves the loading flag as it was, so false when
    it was false. *)
Theorem validation_failure_aborts (env : Env) (s : State) :
  file s = None \/ diet s = "" \/ userType s = ""
  \/ (forall meal, ~ In (meal, true) (selectedMeals s)) ->
  error (submit env s) = Some validation_message
  /\ existsb calls_out (fst (handleSubmit env s)) = false
  /\ existsb sets_loading (fst (handleSubmit env s)) = false
  /\ Forall (fun st => loading st = loading s) (states s (fst (handleSubmit env s)))
  /\ (loading s = false -> loading (submit env s) = false).
Proof.
  intros H. apply missing_fields_true_iff in H.
  rewrite submit_missing, handleSubmit_missing by exact H.
  repeat split; auto.
  repeat constructor.
Qed.

Lemma validation_failure_aborts_witness :
  error (submit (answering "rice" None) initial) = Some validation_message
  /\ existsb calls_out (fst (handleSubmit (answering "rice" None) initial)) = false
  /\ loading (submit (answering "rice" None) initial) = false.
Proof.
  destruct (validation_failure_aborts (answering "rice" None) initial)
    as (He & Hc & _ & _ & Hl).
  - left. reflexivity.
  - split; [exact He|]. split; [exact Hc|]. apply Hl. reflexivity.
Defined.

(** C9 -- a submit that fails the check changes the error and nothing
    else: the meal plan of an earlier submission stays in the state and
    on the page, next to the validation message; the loading flag and
    the form fields are as before. *)
Theorem validation_failure_frame (gt_zero : value -> bool) (env : Env) (s : State) :
  missing_fields s = true ->
  submit env s = setError (Some validation_message) s
  /\ mealPlan (submit env s) = mealPlan s
  /\ loading (submit env s) = loading s
  /\ (file (submit env s), diet (submit env s), userType (submit env s),
      numPeople (submit env s), selectedMeals (submit env s),
      pantryOption (submit env s))
     = (file s, diet s, userType s, numPeople s, selectedMeals s, pantryOption s)
  /\ results gt_zero (submit env s) = results gt_zero s
  /\ output gt_zero (submit env s)
     = (r <~ results gt_zero s ;;
        Normal
          [loader s;
           Elem "p" [("className", VString "error-message"); ("role", VString "alert")]
             [Val (VString validation_message)];
           r]).
Proof.
  intros H. rewrite submit_missing by exact H.
  repeat split.
Qed.

Lemma validation_failure_frame_witness :
  mealPlan (submit (answering "rice" None) unticked) = VArray [stir_fry]
  /\ results (fun _ => false) (submit (answering "rice" None) unticked)
     = results (fun _ => false) unticked
  /\ error (submit (answering "rice" None) unticked) = Some validation_message.
Proof.
  destruct (validation_failure_frame (fun _ => false) (answering "rice" None) unticked)
    as (Hs & Hm & _ & _ & Hr & _).
  - reflexivity.
  - split; [rewrite Hm; reflexivity|]. split; [exact Hr|].
    rewrite Hs. reflexivity.
Defined.

(** ** The loading flag *)

Lemma quiet_keeps_loading (tr : list action) :
  existsb sets_state tr = false -> existsb sets_loading tr = false.
Proof.
  induction tr as [|a tr IH]; simpl; [reflexivity|].
  intros H. apply orb_false_iff in H. destruct H as [Ha Htr].
  rewrite (IH Htr). destruct a; try discriminate; reflexivity.
Qed.

Lemma handle_idle (s : State) (ev : event) :
  loading s = false -> loading (handle s ev) = false.
Proof.
  intros H. destruct ev as [[|f files]| | | | | |env]; try exact H.
  cbn [handle]. destruct (missing_fields s) eqn:Hm.
  - now rewrite submit_missing.
  - now rewrite submit_ready.
Qed.

Lemma session_idle (evs : list event) : loading (session evs) = false.
Proof.
  unfold session. generalize initial (eq_refl : loading initial = false).
  induction evs as [|ev evs IH]; intros s H; [exact H|].
  apply IH, handle_idle, H.
Qed.

(** C7 -- the loading flag is never set by a submit that fails the
    check.  A submit that passes sets it first, keeps it true through
    every later step, and clears it as its last step, however the
    attempt ended.  Between the events of a session it is false. *)
Theorem loading_flag_trace (env : Env) (s : State) :
  (missing_fields s = true ->
   existsb sets_loading (fst (handleSubmit env s)) = false
   /\ Forall (fun st => loading st = loading s) (states s (fst (handleSubmit env s))))
  /\ (missing_fields s = false ->
      exists mid,
        fst (handleSubmit env s)
        = (PreventDefault :: SetLoading true :: mid ++ [SetLoading false])%list
        /\ existsb sets_loading mid = false
        /\ Forall (fun st => loading st = true) (states (setLoading true s) mid)
        /\ loading (submit env s) = false)
  /\ (forall evs, loading (session evs) = false).
Proof.
  split; [|split; [|exact session_idle]]; intros H.
  - rewrite handleSubmit_missing by exact H. split; [reflexivity|].
    repeat constructor.
  - destruct (handleSubmit_ready env s H) as [tr [Htr E]].
    set (last := match reply env s with
                 | Normal meals => SetMealPlan meals
                 | Throw _ => SetError (Some generation_message)
                 end) in E.
    exists (SetError None :: SetMealPlan VNull :: tr ++ [last])%list.
    split; [|split; [|split]].
    + rewrite E. cbn [app]. now rewrite <- app_assoc.
    + cbn [existsb sets_loading orb]. rewrite existsb_app, (quiet_keeps_loading tr Htr).
      subst last. destruct (reply env s); reflexivity.
    + cbn [states apply]. do 2 (constructor; [reflexivity|]).
      rewrite states_app. apply Forall_app. split.
      * eapply Forall_impl; [|exact (states_quiet tr _ Htr)].
        intros st <-. reflexivity.
      * rewrite (run_quiet tr) by exact Htr.
        subst last. destruct (reply env s); repeat constructor.
    + rewrite submit_ready by exact H. reflexivity.
Qed.

Lemma loading_flag_trace_witness :
  existsb sets_loading (fst (handleSubmit (answering "rice" None) initial)) = false
  /\ exists mid,
       fst (handleSubmit (answering "rice" (Some stir_fry_text)) ready)
       = (PreventDefault :: SetLoading true :: mid ++ [SetLoading false])%list
       /\ Forall (fun st => loading st = true) (states (setLoading true ready) mid)
       /\ loading (submit (answering "rice" (Some stir_fry_text)) ready) = false.
Proof.
  split.
  - apply (proj1 (loading_flag_trace (answering "rice" None) initial)). reflexivity.
  - destruct (proj1 (proj2 (loading_flag_trace (answering "rice" (Some stir_fry_text))
                                ready)))
      as [mid (E & _ & F & L)]; [reflexivity|].
    exists mid. auto.
Defined.

(** ** What [JSON.parse] returns *)

Lemma parse_value_defined (fuel : nat) :
  (forall s, JSON.defined (JSON.parse_value fuel s))
  /\ (forall s acc, JSON.defined (JSON.parse_elements fuel s acc))
  /\ (forall s acc, JSON.defined (JSON.parse_members fuel s acc)).
Proof.
  induction fuel as [|fuel (IHv & IHe & IHm)]; [repeat split|].
  split; [|split].
  - intros s. cbn [JSON.parse_value].
    destruct (JSON.skip_ws s) as [|c r]; [exact I|].
    assert (K : forall word v, v <> VUndefined ->
              JSON.defined (JSON.keyword word v (String c r))).
    { intros word v Hv. unfold JSON.keyword.
      destruct (JSON.expect word (String c r)); [|exact I].
      destruct v; try exact I. congruence. }
    destruct (c =? "n")%char; [apply K; discriminate|].
    destruct (c =? "t")%char; [apply K; discriminate|].
    destruct (c =? "f")%char; [apply K; discriminate|].
    destruct (c =? JSON.quote)%char.
    { destruct (JSON.scan_string r) as [[str rest]|]; exact I. }
    destruct (c =? "[")%char.
    { destruct (JSON.skip_ws r) as [|c2 r2]; [apply IHe|].
      destruct c2 as [[] [] [] [] [] [] [] []]; try apply IHe. exact I. }
    destruct (c =? "{")%char.
    { destruct (JSON.skip_ws r) as [|c2 r2]; [apply IHm|].
      destruct c2 as [[] [] [] [] [] [] [] []]; try apply IHm. exact I. }
    destruct (JSON.scan_number (String c r)) as [[d rest]|]; exact I.
  - intros s acc. cbn [JSON.parse_elements].
    destruct (JSON.parse_value fuel s) as [v r| |]; try exact I.
    destruct (JSON.skip_ws r) as [|c2 r2]; [exact I|].
    destruct c2 as [[] [] [] [] [] [] [] []]; try exact I. apply IHe.
  - intros s acc. cbn [JSON.parse_members].
    destruct (JSON.skip_ws s) as [|c r]; [exact I|].
    destruct (c =? JSON.quote)%char; [|exact I].
    destruct (JSON.scan_string r) as [[k r1]|]; [|exact I].
    destruct (JSON.skip_ws r1) as [|c1 r2]; [exact I|].
    assert (G : JSON.defined
                  match JSON.parse_value fuel r2 with
                  | JSON.Ok v r3 =>
                      match JSON.skip_ws r3 with
                      | String ","%char rest =>
                          JSON.parse_members fuel rest (obj_set k v acc)
                      | String "}"%char rest => JSON.Ok (VObject (obj_set k v acc)) rest
                      | _ => JSON.Bad
                      end
                  | JSON.Bad => JSON.Bad
                  | JSON.Fuel => JSON.Fuel
                  end).
    { destruct (JSON.parse_value fuel r2) as [v r3| |]; try exact I.
      destruct (JSON.skip_ws r3) as [|c3 r4]; [exact I|].
      destruct c3 as [[] [] [] [] [] [] [] []]; try exact I. apply IHm. }
    destruct c1 as [[] [] [] [] [] [] [] []]; try exact I. exact G.
Qed.

Lemma parse_defined (text : string) : JSON.parse text <> Normal VUndefined.
Proof.
  unfold JSON.parse.
  pose proof (proj1 (parse_value_defined (JSON.parse_fuel text)) text) as D.
  destruct (JSON.parse_value (JSON.parse_fuel text) text) as [v rest| |];
    try discriminate.
  destruct (JSON.skip_ws rest); [|discriminate].
  destruct v; try discriminate. destruct D.
Qed.

(** ** How a submission ends *)

Lemma submit_replied (env : Env) (s : State) (f : File) (fileContent : string)
    (text : option string) (parsedPlan meals : value) :
  missing_fields s = false ->
  new_GoogleGenAI env = Normal tt ->
  file s = Some f ->
  readAsText env f = Normal fileContent ->
  generateContent env (make_request (prompt s fileContent)) = Normal text ->
  JSON.parse (ToString text) = Normal parsedPlan ->
  Get parsedPlan "meals" = Normal meals ->
  submit env s = setLoading false (setMealPlan meals (setError None (setLoading true s))).
Proof.
  intros Hm Hc Hf Hr Hg Hp Hget.
  rewrite submit_ready by exact Hm.
  unfold reply. rewrite Hc, Hf. cbn [bind]. rewrite Hr. cbn [bind].
  rewrite Hg. cbn [bind]. rewrite Hp. cbn [bind]. now rewrite Hget.
Qed.

Lemma stir_fry_parse :
  JSON.parse stir_fry_text = Normal (VObject [("meals", VArray [stir_fry])]).
Proof. vm_compute. reflexivity. Qed.

(** C6 -- when the service answers the stir-fry text, the result state
    is the one-element list holding that meal, the loading flag is
    false and the error state is null. *)
Theorem stir_fry_result (env : Env) (s : State) (f : File) (fileContent : string) :
  missing_fields s = false ->
  file s = Some f ->
  new_GoogleGenAI env = Normal tt ->
  readAsText env f = Normal fileContent ->
  generateContent env (make_request (prompt s fileContent)) = Normal (Some stir_fry_text) ->
  mealPlan (submit env s) = VArray [stir_fry]
  /\ as_Meals [stir_fry]
     = Some [{| mealType := "dinner"; recipeName := "Stir Fry";
                ingredients := ["rice"; "egg"];
                instructions := "Cook rice, fry egg, mix.";
                shoppingList := None |}]
  /\ loading (submit env s) = false
  /\ error (submit env s) = None.
Proof.
  intros Hm Hf Hc Hr Hg.
  rewrite (submit_replied env s f fileContent (Some stir_fry_text)
             (VObject [("meals", VArray [stir_fry])]) (VArray [stir_fry]));
    try assumption.
  - repeat split.
  - exact stir_fry_parse.
  - reflexivity.
Qed.

Lemma stir_fry_result_witness :
  mealPlan (submit (answering "rice, egg" (Some stir_fry_text)) ready) = VArray [stir_fry]
  /\ loading (submit (answering "rice, egg" (Some stir_fry_text)) ready) = false
  /\ error (submit (answering "rice, egg" (Some stir_fry_text)) ready) = None.
Proof.
  destruct (stir_fry_result (answering "rice, egg" (Some stir_fry_text)) ready
              pantry_file "rice, egg") as (Hp & _ & Hl & He); try reflexivity.
  auto.
Defined.

Lemma fails_reply (env : Env) (s : State) :
  fails env s -> exists e, reply env s = Throw e.
Proof.
  unfold reply. intros F.
  destruct (new_GoogleGenAI env) as [[]|e0] eqn:Hc; [|now eexists]. cbn [bind].
  destruct F as [e H|f e Hf H|f c e Hf Hr H|f c text e Hf Hr Hg H|f c text Hf Hr Hg H].
  - congruence.
  - rewrite Hf, H. now eexists.
  - rewrite Hf, Hr. cbn [bind]. rewrite H. now eexists.
  - rewrite Hf, Hr. cbn [bind]. rewrite Hg. cbn [bind]. rewrite H. now eexists.
  - rewrite Hf, Hr. cbn [bind]. rewrite Hg. cbn [bind]. rewrite H. now eexists.
Qed.

Lemma reply_fails (env : Env) (s : State) (e : exn) :
  missing_fields s = false -> reply env s = Throw e -> fails env s.
Proof.
  intros Hm. apply missing_fields_false_iff in Hm. destruct Hm as [Hf _].
  destruct (file s) as [f|] eqn:Ef; [clear Hf|congruence].
  unfold reply. rewrite Ef.
  destruct (new_GoogleGenAI env) as [[]|e0] eqn:Hc;
    [cbn [bind]|intros _; exact (fails_client env s e0 Hc)].
  destruct (readAsText env f) as [fileContent|e1] eqn:Hr;
    [cbn [bind]|intros _; exact (fails_read env s f e1 Ef Hr)].
  destruct (generateContent env _) as [text|e2] eqn:Hg;
    [cbn [bind]|intros _; exact (fails_service env s f fileContent e2 Ef Hr Hg)].
  destruct (JSON.parse (ToString text)) as [parsedPlan|e3] eqn:Hp;
    [cbn [bind]|intros _; exact (fails_syntax env s f fileContent text e3 Ef Hr Hg Hp)].
  destruct parsedPlan; try discriminate; intros _.
  - now destruct (parse_defined (ToString text)).
  - exact (fails_null env s f fileContent text Ef Hr Hg Hp).
Qed.

(** C1, as the code has it -- after the check has passed, a failure to
    build the client, to read the file or to reach the service, a reply
    that is not JSON, and a reply that is the JSON [null] all leave the
    generic message in the error state, null in the result state and
    the loading flag false.  Any other JSON reply is taken as it is:
    its [meals] property ([undefined] when there is none) becomes the
    result state, the error state is null and the loading flag false.
    The generic message is there only after one of those failures. *)
Theorem generation_outcome (env : Env) (s : State) :
  missing_fields s = false ->
  (fails env s ->
   error (submit env s) = Some generation_message
   /\ mealPlan (submit env s) = VNull
   /\ loading (submit env s) = false)
  /\ (error (submit env s) = Some generation_message -> fails env s)
  /\ (forall f fileContent text parsedPlan meals,
        new_GoogleGenAI env = Normal tt ->
        file s = Some f ->
        readAsText env f = Normal fileContent ->
        generateContent env (make_request (prompt s fileContent)) = Normal text ->
        JSON.parse (ToString text) = Normal parsedPlan ->
        Get parsedPlan "meals" = Normal meals ->
        error (submit env s) = None
        /\ mealPlan (submit env s) = meals
        /\ loading (submit env s) = false).
Proof.
  intros Hm. rewrite submit_ready by exact Hm. split; [|split].
  - intros F. destruct (fails_reply env s F) as [e ->]. repeat split.
  - destruct (reply env s) as [meals|e] eqn:R; [discriminate|].
    intros _. exact (reply_fails env s e Hm R).
  - intros f fileContent text parsedPlan meals Hc Hf Hr Hg Hp Hget.
    rewrite <- (submit_ready env s Hm).
    rewrite (submit_replied env s f fileContent text parsedPlan meals);
      try assumption.
    repeat split.
Qed.

Lemma generation_outcome_witness :
  (error (submit (answering "rice" (Some "not json")) ready) = Some generation_message
   /\ mealPlan (submit (answering "rice" (Some "not json")) ready) = VNull
   /\ loading (submit (answering "rice" (Some "not json")) ready) = false)
  /\ (error (submit (answering "rice" (Some "null")) ready) = Some generation_message
      /\ mealPlan (submit (answering "rice" (Some "null")) ready) = VNull
      /\ loading (submit (answering "rice" (Some "null")) ready) = false)
  /\ (error (submit (answering "rice" (Some "[]")) ready) = None
      /\ mealPlan (submit (answering "rice" (Some "[]")) ready) = VUndefined
      /\ loading (submit (answering "rice" (Some "[]")) ready) = false).
Proof.
  split; [|split].
  - apply (proj1 (generation_outcome (answering "rice" (Some "not json")) ready eq_refl)).
    apply (fails_syntax _ _ pantry_file "rice" (Some "not json") SyntaxError);
      reflexivity.
  - apply (proj1 (generation_outcome (answering "rice" (Some "null")) ready eq_refl)).
    apply (fails_null _ _ pantry_file "rice" (Some "null")); reflexivity.
  - apply (proj2 (proj2 (generation_outcome (answering "rice" (Some "[]")) ready eq_refl))
             pantry_file "rice" (Some "[]") (VArray [])); reflexivity.
Defined.

(** C1 fails as stated: a reply that is JSON but has no [meals], and one
    whose [meals] breaks the declared schema, raise no error. *)
Lemma schema_mismatch_counterexample :
  missing_fields ready = false
  /\ JSON.parse "{}" = Normal (VObject [])
  /\ error (submit (answering "rice" (Some "{}")) ready) = None
  /\ mealPlan (submit (answering "rice" (Some "{}")) ready) = VUndefined
  /\ JSON.parse mismatch_text = Normal (VObject [("meals", VString "none")])
  /\ conforms responseSchema (VObject [("meals", VString "none")]) = false
  /\ error (submit (answering "rice" (Some mismatch_text)) ready) = None
  /\ mealPlan (submit (answering "rice" (Some mismatch_text)) ready) = VString "none".
Proof. vm_compute. repeat split. Qed.

(** ** Text *)

Lemma append_assoc (a b c : string) : (a ++ b) ++ c = a ++ b ++ c.
Proof. induction a as [|x a IH]; simpl; [reflexivity|now rewrite IH]. Qed.

Lemma prefix_nil (s : string) : prefix "" s = true.
Proof. destruct s; reflexivity. Qed.

Lemma prefix_append (a b : string) : prefix a (a ++ b) = true.
Proof.
  induction a as [|x a IH]; simpl; [apply prefix_nil|].
  destruct (ascii_dec x x); [exact IH|congruence].
Qed.

Lemma prefix_extend (w s post : string) :
  prefix w s = true -> prefix w (s ++ post) = true.
Proof.
  revert s. induction w as [|c w IH]; intros s; [intros _; apply prefix_nil|].
  destruct s as [|x s]; simpl; [discriminate|].
  destruct (ascii_dec c x); [apply IH|discriminate].
Qed.

Lemma prefix_shorter (a b s : string) :
  prefix (a ++ b) s = true -> prefix a s = true.
Proof.
  revert s. induction a as [|x a IH]; intros s; [intros _; apply prefix_nil|].
  destruct s as [|y s]; simpl; [discriminate|].
  destruct (ascii_dec x y); [apply IH|discriminate].
Qed.

Lemma includes_skip (sub pre s : string) :
  includes sub s = true -> includes sub (pre ++ s) = true.
Proof.
  intros H. induction pre as [|x pre IH]; [exact H|].
  simpl. rewrite IH. apply orb_true_r.
Qed.

Lemma includes_extend (sub s post : string) :
  includes sub s = true -> includes sub (s ++ post) = true.
Proof.
  induction s as [|x s IH]; intros H.
  - destruct sub; [destruct post; reflexivity|discriminate].
  - cbn [includes] in H. apply orb_true_iff in H. destruct H as [H|H].
    + change (String x s ++ post) with (String x (s ++ post)).
      cbn [includes]. apply orb_true_iff. left.
      exact (prefix_extend _ (String x s) post H).
    + change (String x s ++ post) with (String x (s ++ post)).
      cbn [includes]. rewrite (IH H). apply orb_true_r.
Qed.

Lemma includes_infix (sub pre post : string) :
  includes sub (pre ++ sub ++ post) = true.
Proof.
  apply includes_skip.
  destruct (sub ++ post) eqn:E; cbn [includes].
  - destruct sub; [reflexivity|discriminate].
  - rewrite <- E, prefix_append. reflexivity.
Qed.

Lemma includes_shorter (a b s : string) :
  includes (a ++ b) s = true -> includes a s = true.
Proof.
  induction s as [|x s IH]; cbn [includes]; intros H.
  - apply orb_true_iff in H. destruct H as [H|H]; [|discriminate].
    now rewrite (prefix_shorter a b _ H).
  - apply orb_true_iff in H. destruct H as [H|H].
    + now rewrite (prefix_shorter a b _ H).
    + rewrite (IH H). apply orb_true_r.
Qed.

(** ** The meal times in the prompt *)

Lemma keys_obj_set {A} (k : string) (x : A) (l : list (string * A)) :
  In k (keys l) -> keys (obj_set k x l) = keys l.
Proof.
  induction l as [|[k' y] l IH]; simpl; [tauto|].
  intros [E|Hin].
  - subst k'. now rewrite String.eqb_refl.
  - destruct (k' =? k); simpl; [reflexivity|].
    f_equal. exact (IH Hin).
Qed.

Lemma toggles_keys (evs : list (string * bool)) (s : State) :
  keys (selectedMeals s) = mealTimeOptions ->
  Forall (fun ev => In (fst ev) mealTimeOptions) evs ->
  keys (selectedMeals (toggles evs s)) = mealTimeOptions.
Proof.
  intros Hk Hevs. revert s Hk.
  induction Hevs as [|[name checked] evs Hname _ IH]; intros s Hk; [exact Hk|].
  apply IH. cbn [handleMealTimeChange setSelectedMeals selectedMeals fst snd].
  rewrite keys_obj_set; [exact Hk|]. now rewrite Hk.
Qed.

Lemma prompt_meals_line (s : State) (fileContent : string) :
  includes (meals_line s) (prompt s fileContent) = true.
Proof.
  unfold prompt, meals_line.
  do 6 apply includes_skip.
  change (t_meals ++ ?x) with (("." ++ nl ++ indent)
    ++ "Please suggest recipes for the following meals: " ++ x).
  apply includes_skip.
  change (t_pantry ++ ?x) with
    ("." ++ (nl ++ indent ++ "The pantry and equipment list is as follows:" ++ nl ++ indent) ++ x).
  rewrite <- (append_assoc (selectedMealNames s) "."), <- append_assoc.
  exact (includes_infix _ "" _).
Qed.

(** C4 -- whatever boxes were ticked and unticked, and in whatever
    order, the meal times listed in the prompt are the selected ones in
    the order breakfast, brunch, lunch, snack, dinner: two runs of
    events that leave the same boxes ticked give the same list. *)
Theorem meal_names_in_fixed_order (evs : list (string * bool)) (s0 : State)
    (fileContent : string) :
  keys (selectedMeals s0) = mealTimeOptions ->
  Forall (fun ev => In (fst ev) mealTimeOptions) evs ->
  selectedMealNames (toggles evs s0)
  = String.concat ", "
      (filter (selected (selectedMeals (toggles evs s0)))
         ["breakfast"; "brunch"; "lunch"; "snack"; "dinner"])
  /\ includes
       ("Please suggest recipes for the following meals: "
        ++ selectedMealNames (toggles evs s0) ++ ".")
       (prompt (toggles evs s0) fileContent) = true
  /\ forall evs',
       Forall (fun ev => In (fst ev) mealTimeOptions) evs' ->
       (forall meal, selected (selectedMeals (toggles evs' s0)) meal
                     = selected (selectedMeals (toggles evs s0)) meal) ->
       selectedMealNames (toggles evs' s0) = selectedMealNames (toggles evs s0).
Proof.
  intros Hk Hevs.
  assert (N : forall l, Forall (fun ev => In (fst ev) mealTimeOptions) l ->
            selectedMealNames (toggles l s0)
            = String.concat ", "
                (filter (selected (selectedMeals (toggles l s0))) mealTimeOptions)).
  { intros l Hl. unfold selectedMealNames. now rewrite (toggles_keys l s0 Hk Hl). }
  split; [exact (N evs Hevs)|]. split; [apply prompt_meals_line|].
  intros evs' Hevs' Hsame. rewrite (N evs Hevs), (N evs' Hevs').
  f_equal. apply filter_ext. exact Hsame.
Qed.

Lemma meal_names_in_fixed_order_witness :
  selectedMealNames
    (toggles [("snack", true); ("breakfast", true)] initial) = "breakfast, snack"
  /\ selectedMealNames
       (toggles [("dinner", true); ("snack", true); ("breakfast", true);
                 ("dinner", false)] initial) = "breakfast, snack".
Proof.
  split.
  - rewrite (proj1 (meal_names_in_fixed_order
                      [("snack", true); ("breakfast", true)] initial "" eq_refl
                      ltac:(repeat constructor; simpl; tauto))).
    reflexivity.
  - rewrite (proj1 (meal_names_in_fixed_order
                      [("dinner", true); ("snack", true); ("breakfast", true);
                       ("dinner", false)] initial "" eq_refl
                      ltac:(repeat constructor; simpl; tauto))).
    reflexivity.
Defined.

(** ** The policy clause *)

Lemma includes_past_fixed (w a b : string) :
  first_in w a = false -> includes w (a ++ b) = includes w b.
Proof.
  destruct w as [|c w]; [discriminate|]. unfold first_in, has_char.
  induction a as [|x a IH]; [reflexivity|].
  cbn [chars existsb]. intros H. apply orb_false_iff in H. destruct H as [Hx Ha].
  change (String x a ++ b) with (String x (a ++ b)). cbn [includes prefix].
  destruct (ascii_dec c x) as [->|_]; [now rewrite Ascii.eqb_refl in Hx|].
  exact (IH Ha).
Qed.

Lemma prefix_break (w a b : string) (d : ascii) :
  prefix w (a ++ String d b) = true -> prefix w a = true \/ has_char d w = true.
Proof.
  revert w. induction a as [|x a IH]; intros [|c w]; simpl; auto.
  - destruct (ascii_dec c d) as [->|_]; [|discriminate].
    intros _. right. unfold has_char. simpl. now rewrite Ascii.eqb_refl.
  - destruct (ascii_dec c x) as [->|_]; [|discriminate].
    intros H. destruct (IH w H) as [E|E]; [now left|right].
    unfold has_char in *. simpl. rewrite E. apply orb_true_r.
Qed.

Lemma includes_past_text (w a t b : string) :
  includes w a = false -> head_in_tail t w = false ->
  includes w (a ++ t ++ b) = includes w (t ++ b).
Proof.
  destruct t as [|d t]; [discriminate|]. destruct w as [|c w]; [discriminate|].
  cbn [head_in_tail]. change (String d t ++ b) with (String d (t ++ b)).
  intros Ha Hd. induction a as [|x a IH]; [reflexivity|].
  cbn [includes] in Ha. apply orb_false_iff in Ha. destruct Ha as [Hp Ha].
  change (String x a ++ ?r) with (String x (a ++ r)).
  cbn [includes]. rewrite (IH Ha).
  replace (prefix (String c w) (String x (a ++ String d (t ++ b)))) with false;
    [reflexivity|].
  symmetry. apply not_true_iff_false. intros H.
  cbn [prefix] in H, Hp. destruct (ascii_dec c x); [|discriminate].
  destruct (prefix_break _ _ _ _ H); congruence.
Qed.

Lemma has_char_iff (c : ascii) (s : string) :
  has_char c s = true <-> In c (chars s).
Proof.
  unfold has_char. rewrite existsb_exists. split.
  - intros [x [Hin E]]. apply Ascii.eqb_eq in E. now subst x.
  - intros Hin. exists c. split; [exact Hin|apply Ascii.eqb_refl].
Qed.

Lemma uint_chars (d : Decimal.uint) (x : ascii) :
  In x (chars (NilEmpty.string_of_uint d)) -> In x (chars "0123456789").
Proof.
  induction d; cbn [NilEmpty.string_of_uint chars]; intros Hin;
    try (destruct Hin as [<-|Hin]; [|now apply IHd]).
  - destruct Hin.
  - now left.
  - right; now left.
  - do 2 right; now left.
  - do 3 right; now left.
  - do 4 right; now left.
  - do 5 right; now left.
  - do 6 right; now left.
  - do 7 right; now left.
  - do 8 right; now left.
  - do 9 right; now left.
Qed.

Lemma chars_app (a b : string) : chars (a ++ b) = (chars a ++ chars b)%list.
Proof. induction a as [|c a IH]; simpl; [reflexivity|now rewrite IH]. Qed.

Lemma zeros_chars (n : nat) (x : ascii) : In x (chars (zeros n)) -> x = "0"%char.
Proof.
  induction n as [|n IH]; simpl; [tauto|]. intros [E|H]; [now symmetry|now apply IH].
Qed.

Lemma take_chars (n : nat) (s : string) (x : ascii) :
  In x (chars (take n s)) -> In x (chars s).
Proof.
  revert s. induction n as [|n IH]; intros [|c s]; simpl; try tauto.
  intros [E|H]; [now left|right; now apply IH].
Qed.

Lemma drop_chars (n : nat) (s : string) (x : ascii) :
  In x (chars (drop n s)) -> In x (chars s).
Proof.
  revert s. induction n as [|n IH]; intros [|c s]; simpl; try tauto.
  intros H. right. now apply IH.
Qed.

Lemma int_chars (i : Decimal.int) (x : ascii) :
  In x (chars (NilZero.string_of_int i)) -> In x (chars "0123456789-").
Proof.
  change (chars "0123456789-") with (chars "0123456789" ++ chars "-")%list.
  intros Hin. apply in_or_app.
  unfold NilZero.string_of_int, NilZero.string_of_uint in Hin.
  destruct i as [d|d].
  - left. destruct d; try exact (uint_chars _ _ Hin).
    destruct Hin as [<-|[]]. now left.
  - destruct Hin as [<-|Hin]; [right; now left|].
    left. destruct d; try exact (uint_chars _ _ Hin).
    destruct Hin as [<-|[]]. now left.
Qed.

Lemma sign_digits_chars (x : ascii) :
  In x (chars "0123456789-") -> In x (chars "0123456789-.e+").
Proof.
  change (chars "0123456789-.e+") with (chars "0123456789-" ++ chars ".e+")%list.
  intros H. apply in_or_app. now left.
Qed.

Lemma format_chars (digits : string) (n : Z) (x : ascii) :
  (forall y, In y (chars digits) -> In y (chars "0123456789-")) ->
  In x (chars (format digits n)) -> In x (chars "0123456789-.e+").
Proof.
  intros Hd. unfold format.
  destruct (_ && _).
  { rewrite chars_app. intros H. apply in_app_or in H. destruct H as [H|H].
    - now apply sign_digits_chars, Hd.
    - apply zeros_chars in H. subst x. now left. }
  destruct (_ && _).
  { rewrite !chars_app. intros H. apply in_app_or in H. destruct H as [H|H].
    - now apply sign_digits_chars, Hd, (take_chars _ _ _ H).
    - apply in_app_or in H. destruct H as [H|H].
      + destruct H as [<-|[]]. simpl. tauto.
      + now apply sign_digits_chars, Hd, (drop_chars _ _ _ H). }
  destruct (_ && _).
  { rewrite !chars_app. intros H. apply in_app_or in H. destruct H as [H|H].
    - destruct H as [<-|[<-|[]]]; simpl; tauto.
    - apply in_app_or in H. destruct H as [H|H].
      + apply zeros_chars in H. subst x. now left.
      + now apply sign_digits_chars, Hd. }
  rewrite !chars_app. intros H. apply in_app_or in H. destruct H as [H|H].
  - destruct digits as [|d [|d' rest]].
    + destruct H.
    + apply sign_digits_chars, Hd. exact H.
    + destruct H as [<-|[<-|H]].
      * apply sign_digits_chars, Hd. now left.
      * simpl. tauto.
      * apply sign_digits_chars, Hd. right. exact H.
  - apply in_app_or in H. destruct H as [H|H].
    + destruct H as [<-|[]]. simpl. tauto.
    + apply in_app_or in H. destruct H as [H|H].
      * destruct (_ <? _)%Z; destruct H as [<-|[]]; simpl; tauto.
      * now apply sign_digits_chars, (int_chars _ _ H).
Qed.

Lemma number_chars (n : number) (x : ascii) :
  In x (chars (Number_toString n)) -> In x (chars "0123456789-NaNInfinity.e+").
Proof.
  change (chars "0123456789-NaNInfinity.e+")
    with (chars "0123456789-" ++ chars "NaN" ++ chars "Infinity" ++ chars ".e+")%list.
  destruct n as [z| | | |neg m e]; cbn [Number_toString]; intros Hin.
  - apply in_or_app. left. exact (int_chars _ _ Hin).
  - apply in_or_app. right. apply in_or_app. now left.
  - apply in_or_app. right. apply in_or_app. right. apply in_or_app. now left.
  - destruct Hin as [<-|Hin].
    + apply in_or_app. left. simpl. tauto.
    + apply in_or_app. right. apply in_or_app. right. apply in_or_app. now left.
  - rewrite chars_app in Hin. apply in_app_or in Hin.
    assert (W : In x (chars "0123456789-.e+") ->
                In x (chars "0123456789-" ++ chars "NaN" ++ chars "Infinity"
                      ++ chars ".e+")%list).
    { change (chars "0123456789-.e+") with (chars "0123456789-" ++ chars ".e+")%list.
      intros H. apply in_app_or in H. apply in_or_app. destruct H as [H|H]; [now left|].
      right. apply in_or_app. right. apply in_or_app. now right. }
    destruct Hin as [Hin|Hin].
    + destruct neg; [|destruct Hin]. destruct Hin as [<-|[]].
      apply in_or_app. left. simpl. tauto.
    + apply W. apply (format_chars _ _ _ (fun y => int_chars _ y) Hin).
Qed.

Lemma number_lacks (c : ascii) (n : number) :
  has_char c "0123456789-NaNInfinity.e+" = false ->
  has_char c (Number_toString n) = false.
Proof.
  intros H. apply not_true_iff_false. intros E.
  apply has_char_iff, number_chars, has_char_iff in E. congruence.
Qed.

(** A word that starts with a capital S or Y, holds no full stop and no
    line break after that, and does not occur in the user's texts occurs
    in the prompt only if the policy clause or the closing text has it. *)
Lemma prompt_lacks (w : string) (s : State) (fileContent : string) :
  first_in w "0123456789-NaNInfinity.e+" = false ->
  existsb (first_in w) fixed_texts = false ->
  head_in_tail "." w = false ->
  head_in_tail nl w = false ->
  first_in w (pantryInstruction s) = false ->
  includes w t_end = false ->
  clean w s fileContent ->
  includes w (prompt s fileContent) = false.
Proof.
  intros Hn Hfixed Hdot Hnl Hclause Hend (Hu & Hd & Hm & Hf).
  assert (N : first_in w (Number_toString (numPeople s)) = false).
  { destruct w as [|c w]; [discriminate|]. now apply number_lacks. }
  cbn [existsb fixed_texts] in Hfixed.
  repeat (apply orb_false_iff in Hfixed; destruct Hfixed as [? Hfixed]).
  unfold prompt.
  rewrite (includes_past_fixed w t_user) by assumption.
  rewrite (includes_past_text w (userType s) t_people) by assumption.
  rewrite (includes_past_fixed w t_people) by assumption.
  rewrite (includes_past_fixed w (Number_toString _)) by assumption.
  rewrite (includes_past_fixed w t_diet) by assumption.
  rewrite (includes_past_text w (diet s) t_meals) by assumption.
  rewrite (includes_past_fixed w t_meals) by assumption.
  rewrite (includes_past_text w (selectedMealNames s) t_pantry) by assumption.
  rewrite (includes_past_fixed w t_pantry) by assumption.
  rewrite (includes_past_text w fileContent t_policy) by assumption.
  rewrite (includes_past_fixed w t_policy) by assumption.
  rewrite (includes_past_fixed w (pantryInstruction s)) by assumption.
  exact Hend.
Qed.

Lemma prompt_policy (s : State) (fileContent : string) :
  includes (pantryInstruction s) (prompt s fileContent) = true.
Proof.
  unfold prompt. do 11 apply includes_skip.
  exact (includes_infix _ "" _).
Qed.

(** C5, as the code has it -- the prompt carries the shopping-list
    clause when the option is allowNew and the strict clause when it is
    pantryOnly; the other clause is not in it, provided that none of the
    texts the user brings in (user type, diet, meal names, file content)
    holds the opening sentence of that clause. *)
Theorem policy_clause (s : State) (fileContent : string) :
  (pantryOption s = "allowNew" ->
   includes shopping_clause (prompt s fileContent) = true
   /\ (clean strict_opening s fileContent ->
       includes strict_clause (prompt s fileContent) = false))
  /\ (pantryOption s = "pantryOnly" ->
      includes strict_clause (prompt s fileContent) = true
      /\ (clean shopping_opening s fileContent ->
          includes shopping_clause (prompt s fileContent) = false)).
Proof.
  pose proof (prompt_policy s fileContent) as P.
  split; intros Ho; unfold pantryInstruction in P; rewrite Ho in P;
    (split; [exact P|]); intros Hc; apply not_true_iff_false; intros H.
  - apply (includes_shorter strict_opening ".") in H.
    rewrite prompt_lacks in H; try reflexivity; try assumption; try discriminate.
    unfold pantryInstruction. now rewrite Ho.
  - apply (includes_shorter shopping_opening
             ". If you do, please provide a separate 'shoppingList' of items to buy for each recipe that requires them.") in H.
    rewrite prompt_lacks in H; try reflexivity; try assumption; try discriminate.
    unfold pantryInstruction. now rewrite Ho.
Qed.

Lemma policy_clause_witness :
  includes shopping_clause (prompt allowing "rice, egg") = true
  /\ includes strict_clause (prompt allowing "rice, egg") = false
  /\ includes strict_clause (prompt ready "rice, egg") = true
  /\ includes shopping_clause (prompt ready "rice, egg") = false.
Proof.
  destruct (proj1 (policy_clause allowing "rice, egg") eq_refl) as [A B].
  destruct (proj2 (policy_clause ready "rice, egg") eq_refl) as [C D].
  split; [exact A|]. split; [apply B; repeat split|].
  split; [exact C|]. apply D; repeat split.
Defined.

(** C5 fails as stated: with new ingredients allowed and a pantry file
    that holds the sentence of the strict policy, both clauses are in
    the prompt. *)
Lemma both_clauses_counterexample :
  missing_fields allowing = false
  /\ pantryOption allowing = "allowNew"
  /\ includes shopping_clause (prompt allowing strict_clause) = true
  /\ includes strict_clause (prompt allowing strict_clause) = true.
Proof. vm_compute. repeat split. Qed.

(** ** The number of people *)

Lemma prompt_people_line (s : State) (fileContent : string) :
  includes (people_line s) (prompt s fileContent) = true.
Proof.
  unfold prompt, people_line.
  do 2 apply includes_skip.
  change (t_people ++ ?x) with (". " ++ "I am planning meals for " ++ x).
  apply includes_skip.
  change (t_diet ++ ?x) with
    (" person(s)." ++ (nl ++ indent ++ "My diet preference is ") ++ x).
  rewrite <- (append_assoc (Number_toString (numPeople s))), <- append_assoc.
  exact (includes_infix _ "" _).
Qed.

Lemma generate_calls (env : Env) (s : State) (f : File) (fileContent : string) :
  new_GoogleGenAI env = Normal tt ->
  file s = Some f ->
  readAsText env f = Normal fileContent ->
  In (GenerateContent (make_request (prompt s fileContent))) (fst (generate env s)).
Proof.
  intros Hc Hf Hr.
  unfold generate, fileToText, call, lift, emit, bindM.
  rewrite Hc, Hf, Hr.
  destruct (generateContent env _) as [text|e]; [|simpl; tauto].
  destruct (JSON.parse (ToString text)) as [parsedPlan|e]; [|simpl; tauto].
  destruct (Get parsedPlan "meals"); simpl; tauto.
Qed.

Lemma handleSubmit_calls (env : Env) (s : State) (a : action) :
  missing_fields s = false ->
  In a (fst (generate env s)) -> In a (fst (handleSubmit env s)).
Proof.
  intros Hm Hin. unfold handleSubmit. rewrite Hm.
  unfold try_catch_finally, emit, bindM.
  destruct (generate env s) as [tr [[]|e]]; simpl in *;
    do 4 right; apply in_or_app; left; [exact Hin|].
  apply in_or_app. now left.
Qed.

(** C10, as the code has it -- the number of people is not checked:
    whatever Number the state holds (0, a negative one, a fraction, one
    too large to be written out in digits, NaN, an infinite one), a form
    that has the file, the diet, the user type and a meal time goes
    through, and the prompt sent carries that Number as the language
    prints it.  Emptying the field stores 0. *)
Theorem people_not_checked (env : Env) (s : State) (n : number) (f : File)
    (fileContent : string) :
  is_Number n = true ->
  missing_fields s = false ->
  file s = Some f ->
  new_GoogleGenAI env = Normal tt ->
  readAsText env f = Normal fileContent ->
  missing_fields (setNumPeople n s) = false
  /\ In (SetLoading true) (fst (handleSubmit env (setNumPeople n s)))
  /\ In (GenerateContent (make_request (prompt (setNumPeople n s) fileContent)))
        (fst (handleSubmit env (setNumPeople n s)))
  /\ includes ("I am planning meals for " ++ Number_toString n ++ " person(s).")
       (prompt (setNumPeople n s) fileContent) = true
  /\ handleNumPeopleChange "" s = Some (setNumPeople (Int 0) s).
Proof.
  intros _ Hm Hf Hc Hr.
  assert (Hm' : missing_fields (setNumPeople n s) = false) by exact Hm.
  split; [exact Hm'|]. split; [|split; [|split; [|reflexivity]]].
  - destruct (handleSubmit_ready env _ Hm') as [tr [_ ->]]. right. now left.
  - apply handleSubmit_calls; [exact Hm'|].
    now apply (generate_calls env (setNumPeople n s) f).
  - exact (prompt_people_line (setNumPeople n s) fileContent).
Qed.

Lemma people_not_checked_witness :
  includes "I am planning meals for NaN person(s)."
    (prompt (setNumPeople NaN ready) "rice, egg") = true
  /\ includes "I am planning meals for 0 person(s)."
       (prompt (setNumPeople (Int 0) ready) "rice, egg") = true
  /\ includes "I am planning meals for -2 person(s)."
       (prompt (setNumPeople (Int (-2)) ready) "rice, egg") = true
  /\ includes "I am planning meals for 1.5 person(s)."
       (prompt (setNumPeople (Bin false 3 (-1)) ready) "rice, egg") = true
  /\ includes "I am planning meals for 1e+21 person(s)."
       (prompt (setNumPeople (Bin false 476837158203125 21) ready) "rice, egg") = true
  /\ In (GenerateContent (make_request (prompt (setNumPeople NaN ready) "rice, egg")))
        (fst (handleSubmit offline (setNumPeople NaN ready))).
Proof.
  pose proof (fun n H => people_not_checked offline ready n pantry_file "rice, egg"
                           H eq_refl eq_refl eq_refl eq_refl) as P.
  assert (E1 : Number_toString (Bin false 3 (-1)) = "1.5") by (vm_compute; reflexivity).
  assert (E2 : Number_toString (Bin false 476837158203125 21) = "1e+21")
    by (vm_compute; reflexivity).
  pose proof (proj1 (proj2 (proj2 (proj2 (P (Bin false 3 (-1)) eq_refl))))) as H1.
  pose proof (proj1 (proj2 (proj2 (proj2 (P (Bin false 476837158203125 21) eq_refl)))))
    as H2.
  rewrite E1 in H1. rewrite E2 in H2.
  split; [exact (proj1 (proj2 (proj2 (proj2 (P NaN eq_refl)))))|].
  split; [exact (proj1 (proj2 (proj2 (proj2 (P (Int 0) eq_refl)))))|].
  split; [exact (proj1 (proj2 (proj2 (proj2 (P (Int (-2)) eq_refl)))))|].
  split; [exact H1|]. split; [exact H2|].
  exact (proj1 (proj2 (proj2 (P NaN eq_refl)))).
Defined.

(** C10 fails as stated: emptying the people field stores 0, not NaN. *)
Lemma cleared_field_counterexample :
  Number_of_string "" = Some (Int 0)
  /\ option_map numPeople (handleNumPeopleChange "" ready) = Some (Int 0)
  /\ option_map people_line (handleNumPeopleChange "" ready)
     = Some "I am planning meals for 0 person(s)."
  /\ Int 0 <> NaN.
Proof. repeat split. discriminate. Qed.

(** ** The reply on the page *)

Lemma map_from_li (l : list string) (i : nat) :
  map_from li (map VString l) i = Normal (bullets l i).
Proof.
  revert i. induction l as [|x l IH]; intros i; simpl; [reflexivity|].
  now rewrite IH.
Qed.

Lemma conforms_strings (vs : list value) :
  forallb (conforms SString) vs = true ->
  exists l, vs = map VString l /\ as_strings vs = Some l.
Proof.
  induction vs as [|v vs IH]; simpl; intros H; [now exists []|].
  split_and. destruct v; try discriminate.
  destruct IH as [l [-> E]]; [assumption|].
  exists (s :: l). simpl in *. now rewrite E.
Qed.

Lemma conforms_meal (gt_zero : value -> bool) (v : value) (i : nat) :
  conforms meal_schema v = true ->
  exists m, as_Meal v = Some m /\ render_meal gt_zero v i = Normal (card m).
Proof.
  destruct v as [| | | | |?|ms]; try discriminate.
  cbn [conforms meal_schema forallb fst snd]. intros H. split_and.
  unfold as_Meal, render_meal, own, Get, card, shopping_view.
  destruct (assoc "mealType" ms) as [[| | | |a| |]|]; try discriminate.
  destruct (assoc "recipeName" ms) as [[| | | |b| |]|]; try discriminate.
  destruct (assoc "instructions" ms) as [[| | | |d| |]|]; try discriminate.
  destruct (assoc "ingredients" ms) as [[| | | | |vs|]|]; try discriminate.
  destruct (conforms_strings vs) as [c [-> Ec]]; [assumption|].
  cbn [as_string as_string_array bind call_map]. rewrite Ec, map_from_li.
  destruct (assoc "shoppingList" ms) as [[| | | | |ws|]|]; try discriminate.
  - destruct (conforms_strings ws) as [l [-> El]]; [assumption|].
    cbn [as_string_array]. rewrite El. eexists. split; [reflexivity|].
    cbn [shoppingList recipeName mealType ingredients instructions].
    unfold shopping_list. cbn [ToBoolean length_gt_zero bind].
    destruct l as [|x l]; [reflexivity|].
    cbn [map List.length Nat.ltb Nat.leb call_map bind].
    change (VString x :: map VString l) with (map VString (x :: l)).
    now rewrite map_from_li.
  - eexists. split; reflexivity.
Qed.

Lemma conforms_meals (gt_zero : value -> bool) (vs : list value) (i : nat) :
  forallb (conforms meal_schema) vs = true ->
  exists ms,
    as_Meals vs = Some ms
    /\ map_from (render_meal gt_zero) vs i = Normal (map card ms).
Proof.
  revert i. induction vs as [|v vs IH]; intros i H; [now exists []|].
  cbn [forallb] in H. split_and.
  destruct (conforms_meal gt_zero v i) as [m [Em Rm]]; [assumption|].
  destruct (IH (S i)) as [ms [Ems Rms]]; [assumption|].
  exists (m :: ms). cbn [as_Meals map_from map bind].
  now rewrite Em, Ems, Rm, Rms.
Qed.

(** C8 -- for a reply that is JSON and meets the declared schema, the
    result state is the array of its meals and the page shows one card
    per meal, in order, with the meal type, the recipe name, every
    ingredient in order and the instructions as the reply has them; the
    shopping list is on a card exactly when the meal has one that is not
    empty.  (The schema does not require [meals]: without it there is no
    list and nothing is shown.) *)
Theorem reply_round_trip (gt_zero : value -> bool) (env : Env) (s : State) (f : File)
    (fileContent : string) (text : option string) (parsedPlan : value) :
  missing_fields s = false ->
  file s = Some f ->
  new_GoogleGenAI env = Normal tt ->
  readAsText env f = Normal fileContent ->
  generateContent env (make_request (prompt s fileContent)) = Normal text ->
  JSON.parse (ToString text) = Normal parsedPlan ->
  conforms responseSchema parsedPlan = true ->
  (exists vs ms,
      Get parsedPlan "meals" = Normal (VArray vs)
      /\ as_Meals vs = Some ms
      /\ mealPlan (submit env s) = VArray vs
      /\ results gt_zero (submit env s) = Normal (results_view ms)
      /\ forall m, In m ms ->
           (is_element (shopping_view m) = true
            <-> exists x l, shoppingList m = Some (x :: l)))
  \/ (Get parsedPlan "meals" = Normal VUndefined
      /\ mealPlan (submit env s) = VUndefined
      /\ results gt_zero (submit env s) = Normal (Val VUndefined)).
Proof.
  intros Hm Hf Hc Hr Hg Hp Hs.
  assert (E : forall meals, Get parsedPlan "meals" = Normal meals ->
                mealPlan (submit env s) = meals).
  { intros meals Hget.
    now rewrite (submit_replied env s f fileContent text parsedPlan meals). }
  destruct parsedPlan as [| | | | |?|members]; try discriminate.
  cbn [conforms responseSchema forallb fst snd] in Hs.
  cbn [Get] in *.
  destruct (assoc "meals" members) as [meals|]; [left|right].
  - destruct meals as [| | | | |vs|]; try discriminate.
    rewrite andb_true_r in Hs.
    destruct (conforms_meals gt_zero vs 0 Hs) as [ms [Ems Rms]].
    exists vs, ms. split; [reflexivity|]. split; [exact Ems|].
    split; [now apply E|]. split.
    + unfold results. rewrite (E _ eq_refl).
      cbn [ToBoolean call_map bind]. now rewrite Rms.
    + intros m _. unfold shopping_view.
      destruct (shoppingList m) as [[|x l]|]; cbn [is_element].
      * split; [discriminate|intros (? & ? & ?); discriminate].
      * split; [intros _; now exists x, l|reflexivity].
      * split; [discriminate|intros (? & ? & ?); discriminate].
  - split; [reflexivity|]. split; [now apply E|].
    unfold results. now rewrite (E _ eq_refl).
Qed.

Lemma reply_round_trip_witness :
  results (fun _ => false) (submit (answering "rice, egg" (Some two_meals_text)) ready)
  = Normal
      (results_view
         [{| mealType := "dinner"; recipeName := "Stir Fry";
             ingredients := ["rice"; "egg"];
             instructions := "Cook rice, fry egg, mix.";
             shoppingList := Some ["soy sauce"] |};
          {| mealType := "snack"; recipeName := "Rice Cake";
             ingredients := ["rice"];
             instructions := "Press and toast.";
             shoppingList := Some [] |}]).
Proof.
  destruct (reply_round_trip (fun _ => false)
              (answering "rice, egg" (Some two_meals_text)) ready pantry_file
              "rice, egg" (Some two_meals_text)
              (match JSON.parse two_meals_text with
               | Normal v => v
               | Throw _ => VNull
               end) eq_refl eq_refl eq_refl eq_refl eq_refl eq_refl eq_refl)
    as [(vs & ms & G & A & _ & R & _)|(G & _)].
  - injection G as <-. injection A as <-. exact R.
  - discriminate G.
Defined.

(** ** Fuel *)

Lemma skip_ws_length (s : string) : String.length (JSON.skip_ws s) <= String.length s.
Proof.
  induction s as [|c s IH]; simpl; [lia|].
  destruct (JSON.is_ws c); simpl; lia.
Qed.

Lemma skip_ws_cons (s r : string) (c : ascii) :
  JSON.skip_ws s = String c r -> String.length r < String.length s.
Proof.
  intros E. pose proof (skip_ws_length s) as L. rewrite E in L. simpl in L. lia.
Qed.

Lemma expect_length (word s r : string) :
  JSON.expect word s = Some r ->
  String.length s = String.length word + String.length r.
Proof.
  revert s. induction word as [|c word IH]; intros s; simpl.
  - now intros [= ->].
  - destruct s as [|x s]; [discriminate|].
    destruct (c =? x)%char; [|discriminate].
    intros E. simpl. now rewrite (IH _ E).
Qed.

Lemma scan_chars_length (s : string) (us : list JSON.cunit) (r : string) :
  JSON.scan_chars s = Some (us, r) -> String.length r < String.length s.
Proof.
  remember (String.length s) as n eqn:En.
  revert s us r En. induction n as [n IH] using lt_wf_ind.
  intros s us r En. destruct s as [|c s]; [discriminate|].
  cbn [JSON.scan_chars]. simpl in En.
  assert (K : forall u t, String.length t < n ->
            JSON.cons_unit u (JSON.scan_chars t) = Some (us, r) ->
            String.length r < n).
  { intros u t Lt E. destruct (JSON.scan_chars t) as [[us' r']|] eqn:Et; [|discriminate].
    injection E as _ <-. pose proof (IH _ Lt t us' r' eq_refl Et). lia. }
  destruct (c =? JSON.quote)%char; [intros [= _ <-]; lia|].
  destruct (c =? JSON.backslash)%char.
  - destruct s as [|e s]; [discriminate|]. simpl in En.
    destruct (JSON.escape_char e); [apply K; lia|].
    destruct (e =? "u")%char; [|discriminate].
    destruct s as [|h1 [|h2 [|h3 [|h4 s]]]]; try discriminate. simpl in En.
    destruct (JSON.hex4 h1 h2 h3 h4); [apply K; lia|discriminate].
  - destruct (N_of_ascii c <? 32)%N; [discriminate|apply K; lia].
Qed.

Lemma scan_string_length (s str r : string) :
  JSON.scan_string s = Some (str, r) -> String.length r < String.length s.
Proof.
  unfold JSON.scan_string.
  destruct (JSON.scan_chars s) as [[us r']|] eqn:E; [|discriminate].
  intros [= _ <-]. exact (scan_chars_length _ _ _ E).
Qed.

Lemma take_digits_length (s : string) :
  String.length (snd (JSON.take_digits s)) <= String.length s.
Proof.
  induction s as [|c s IH]; simpl; [lia|].
  destruct (JSON.digit c); [|simpl; lia].
  destruct (JSON.take_digits s); simpl in *. lia.
Qed.

Lemma scan_int_length (s : string) (ds : list N) (r : string) :
  JSON.scan_int s = Some (ds, r) -> String.length r < String.length s.
Proof.
  unfold JSON.scan_int. destruct s as [|c s]; [discriminate|].
  assert (G : match JSON.digit c with
              | Some _ => Some (JSON.take_digits (String c s))
              | None => None
              end = Some (ds, r) -> String.length r < String.length (String c s)).
  { destruct (JSON.digit c) eqn:D; [|discriminate].
    cbn [JSON.take_digits]. rewrite D.
    pose proof (take_digits_length s) as L.
    destruct (JSON.take_digits s). intros [= _ <-]. simpl in *. lia. }
  destruct c as [[] [] [] [] [] [] [] []]; try exact G.
  intros [= _ <-]. simpl. lia.
Qed.

Lemma scan_frac_length (s : string) (ds : list N) (r : string) :
  JSON.scan_frac s = Some (ds, r) -> String.length r <= String.length s.
Proof.
  unfold JSON.scan_frac. destruct s as [|c s]; [intros [= _ <-]; lia|].
  assert (G : Some (@nil N, String c s) = Some (ds, r) ->
              String.length r <= String.length (String c s))
    by (intros [= _ <-]; lia).
  destruct c as [[] [] [] [] [] [] [] []]; try exact G.
  pose proof (take_digits_length s) as L.
  destruct (JSON.take_digits s) as [[|d ds'] r']; [discriminate|].
  intros [= _ <-]. simpl in *. lia.
Qed.

Lemma scan_sign_length (s : string) :
  String.length (snd (JSON.scan_sign s)) <= String.length s.
Proof.
  destruct s as [|c s]; [simpl; lia|].
  destruct c as [[] [] [] [] [] [] [] []]; simpl; lia.
Qed.

Lemma scan_minus_length (s : string) :
  String.length (snd (JSON.scan_minus s)) <= String.length s.
Proof.
  destruct s as [|c s]; [simpl; lia|].
  destruct c as [[] [] [] [] [] [] [] []]; simpl; lia.
Qed.

Lemma scan_exp_digits_length (s : string) (e : Z) (r : string) :
  JSON.scan_exp_digits s = Some (e, r) -> String.length r <= String.length s.
Proof.
  unfold JSON.scan_exp_digits.
  pose proof (scan_sign_length s) as L1.
  destruct (JSON.scan_sign s) as [neg r1].
  pose proof (take_digits_length r1) as L.
  destruct (JSON.take_digits r1) as [[|d ds'] r']; [discriminate|].
  intros [= _ <-]. simpl in *. lia.
Qed.

Lemma scan_exp_length (s : string) (e : Z) (r : string) :
  JSON.scan_exp s = Some (e, r) -> String.length r <= String.length s.
Proof.
  unfold JSON.scan_exp. destruct s as [|c s]; [intros [= _ <-]; lia|].
  assert (G : Some (0%Z, String c s) = Some (e, r) ->
              String.length r <= String.length (String c s))
    by (intros [= _ <-]; lia).
  assert (E : JSON.scan_exp_digits s = Some (e, r) ->
              String.length r <= String.length (String c s)).
  { intros H. apply scan_exp_digits_length in H. simpl. lia. }
  destruct c as [[] [] [] [] [] [] [] []]; try exact G; exact E.
Qed.

Lemma scan_number_length (s : string) (d : decimal) (r : string) :
  JSON.scan_number s = Some (d, r) -> String.length r < String.length s.
Proof.
  unfold JSON.scan_number.
  pose proof (scan_minus_length s) as L1.
  destruct (JSON.scan_minus s) as [neg s1].
  destruct (JSON.scan_int s1) as [[ids s2]|] eqn:E1; [|discriminate].
  destruct (JSON.scan_frac s2) as [[fds s3]|] eqn:E2; [|discriminate].
  destruct (JSON.scan_exp s3) as [[e s4]|] eqn:E3; [|discriminate].
  intros [= _ <-].
  apply scan_int_length in E1. apply scan_frac_length in E2.
  apply scan_exp_length in E3. simpl in L1. lia.
Qed.

Lemma within_longer {A} (s s' : string) (o : JSON.outcome A) :
  String.length s' <= String.length s -> JSON.within s' o -> JSON.within s o.
Proof. destruct o; simpl; lia || tauto. Qed.

Lemma parse_fuel_enough (fuel : nat) :
  (forall s, 2 * String.length s < fuel -> JSON.within s (JSON.parse_value fuel s))
  /\ (forall s acc, 2 * String.length s + 1 < fuel ->
        JSON.within s (JSON.parse_elements fuel s acc))
  /\ (forall s acc, 2 * String.length s + 1 < fuel ->
        JSON.within s (JSON.parse_members fuel s acc)).
Proof.
  induction fuel as [|fuel (IHv & IHe & IHm)]; [repeat split; intros; lia|].
  split; [|split].
  - intros s L. cbn [JSON.parse_value].
    destruct (JSON.skip_ws s) as [|c r] eqn:E; [exact I|].
    pose proof (skip_ws_cons s r c E) as Lr.
    pose proof (skip_ws_length s) as Ls. rewrite E in Ls.
    assert (K : forall x word v,
              JSON.within s (JSON.keyword (String x word) v (String c r))).
    { intros x word v. unfold JSON.keyword.
      destruct (JSON.expect (String x word) (String c r)) as [rest|] eqn:Ex;
        [|exact I].
      apply expect_length in Ex. simpl in *. lia. }
    destruct (c =? "n")%char; [apply K|].
    destruct (c =? "t")%char; [apply K|].
    destruct (c =? "f")%char; [apply K|].
    destruct (c =? JSON.quote)%char.
    { destruct (JSON.scan_string r) as [[str rest]|] eqn:Es; [|exact I].
      apply scan_string_length in Es. simpl. lia. }
    destruct (c =? "[")%char.
    { assert (G : JSON.within s (JSON.parse_elements fuel r [])).
      { apply (within_longer s r); [lia|]. apply IHe. lia. }
      destruct (JSON.skip_ws r) as [|c2 r2] eqn:E2; [exact G|].
      apply skip_ws_cons in E2.
      destruct c2 as [[] [] [] [] [] [] [] []]; try exact G. simpl. lia. }
    destruct (c =? "{")%char.
    { assert (G : JSON.within s (JSON.parse_members fuel r [])).
      { apply (within_longer s r); [lia|]. apply IHm. lia. }
      destruct (JSON.skip_ws r) as [|c2 r2] eqn:E2; [exact G|].
      apply skip_ws_cons in E2.
      destruct c2 as [[] [] [] [] [] [] [] []]; try exact G. simpl. lia. }
    destruct (JSON.scan_number (String c r)) as [[d rest]|] eqn:En; [|exact I].
    apply scan_number_length in En. simpl in *. lia.
  - intros s acc L. cbn [JSON.parse_elements].
    pose proof (IHv s) as V.
    destruct (JSON.parse_value fuel s) as [v r| |]; [|exact I|apply V; lia].
    assert (Lr : String.length r < String.length s) by (apply V; lia).
    destruct (JSON.skip_ws r) as [|c2 r2] eqn:E2; [exact I|].
    apply skip_ws_cons in E2.
    destruct c2 as [[] [] [] [] [] [] [] []]; try exact I;
      [simpl; lia|].
    apply (within_longer s r2); [lia|]. apply IHe. lia.
  - intros s acc L. cbn [JSON.parse_members].
    destruct (JSON.skip_ws s) as [|c r] eqn:E; [exact I|].
    apply skip_ws_cons in E.
    destruct (c =? JSON.quote)%char; [|exact I].
    destruct (JSON.scan_string r) as [[k r1]|] eqn:Es; [|exact I].
    apply scan_string_length in Es.
    destruct (JSON.skip_ws r1) as [|c1 r2] eqn:E1; [exact I|].
    apply skip_ws_cons in E1.
    assert (G : JSON.within s
                  match JSON.parse_value fuel r2 with
                  | JSON.Ok v r3 =>
                      match JSON.skip_ws r3 with
                      | String ","%char rest =>
                          JSON.parse_members fuel rest (obj_set k v acc)
                      | String "}"%char rest => JSON.Ok (VObject (obj_set k v acc)) rest
                      | _ => JSON.Bad
                      end
                  | JSON.Bad => JSON.Bad
                  | JSON.Fuel => JSON.Fuel
                  end).
    { pose proof (IHv r2) as V.
      destruct (JSON.parse_value fuel r2) as [v r3| |]; [|exact I|apply V; lia].
      assert (L3 : String.length r3 < String.length r2) by (apply V; lia).
      destruct (JSON.skip_ws r3) as [|c3 r4] eqn:E3; [exact I|].
      apply skip_ws_cons in E3.
      destruct c3 as [[] [] [] [] [] [] [] []]; try exact I;
        [simpl; lia|].
      apply (within_longer s r4); [lia|]. apply IHm. lia. }
    destruct c1 as [[] [] [] [] [] [] [] []]; try exact I. exact G.
Qed.

(** [JSON.parse] never fails for want of fuel: it throws only where the
    text is not JSON. *)
Lemma parse_never_starves (text : string) :
  JSON.parse_value (JSON.parse_fuel text) text <> JSON.Fuel.
Proof.
  pose proof (proj1 (parse_fuel_enough (JSON.parse_fuel text)) text) as W.
  intros E. rewrite E in W. apply W. unfold JSON.parse_fuel. lia.
Qed.

(* ================================================================== *)
(** * Further properties of the handlers *)
(* ================================================================== *)

(** ** Ticking boxes *)

Lemma assoc_obj_set {A} (k k' : string) (x : A) (l : list (string * A)) :
  assoc k' (obj_set k x l) = if k' =? k then Some x else assoc k' l.
Proof.
  induction l as [|[k0 y] l IH]; cbn [obj_set assoc].
  - rewrite (String.eqb_sym k k'). now destruct (k' =? k).
  - destruct (k0 =? k) eqn:E0; cbn [assoc].
    + apply String.eqb_eq in E0. subst k0.
      rewrite (String.eqb_sym k k'). now destruct (k' =? k).
    + rewrite IH. destruct (k0 =? k') eqn:E1; [|reflexivity].
      apply String.eqb_eq in E1. subst k0. now rewrite E0.
Qed.

(** X1 -- a checkbox event sets the selection of its meal to the state
    of the box, leaves the selection of every other meal as it was, and
    touches no other part of the state. *)
Theorem tick_changes_one_box (name meal : string) (checked : bool) (s : State) :
  selected (selectedMeals (handleMealTimeChange name checked s)) meal
  = (if meal =? name then checked else selected (selectedMeals s) meal)
  /\ (file (handleMealTimeChange name checked s),
      diet (handleMealTimeChange name checked s),
      userType (handleMealTimeChange name checked s),
      numPeople (handleMealTimeChange name checked s),
      pantryOption (handleMealTimeChange name checked s),
      mealPlan (handleMealTimeChange name checked s),
      loading (handleMealTimeChange name checked s),
      error (handleMealTimeChange name checked s))
     = (file s, diet s, userType s, numPeople s, pantryOption s, mealPlan s,
        loading s, error s).
Proof.
  split; [|reflexivity].
  unfold selected. cbn [handleMealTimeChange setSelectedMeals selectedMeals].
  rewrite assoc_obj_set. now destruct (meal =? name).
Qed.

Lemma obj_set_twice {A} (k : string) (x y : A) (l : list (string * A)) :
  obj_set k x (obj_set k y l) = obj_set k x l.
Proof.
  induction l as [|[k0 z] l IH]; cbn [obj_set].
  - now rewrite String.eqb_refl.
  - destruct (k0 =? k) eqn:E; cbn [obj_set]; rewrite E; [reflexivity|].
    now rewrite IH.
Qed.

Lemma obj_set_swap {A} (k1 k2 : string) (x y : A) (l : list (string * A)) :
  k1 <> k2 -> In k1 (keys l) \/ In k2 (keys l) ->
  obj_set k1 x (obj_set k2 y l) = obj_set k2 y (obj_set k1 x l).
Proof.
  intros Hne. induction l as [|[k0 z] l IH]; cbn [keys map fst In].
  - intros [[]|[]].
  - intros Hin. cbn [obj_set].
    destruct (k0 =? k1) eqn:E1; destruct (k0 =? k2) eqn:E2; cbn [obj_set];
      rewrite ?E1, ?E2; try reflexivity.
    + apply String.eqb_eq in E1, E2. congruence.
    + f_equal. apply IH.
      apply String.eqb_neq in E1, E2.
      destruct Hin as [[E|H]|[E|H]]; try congruence; [now left|now right].
Qed.

(** X2 -- events on two different checkboxes can come in either order,
    and of two events on the same checkbox only the later one counts. *)
Theorem ticks_commute (n1 n2 : string) (c1 c2 : bool) (s : State) :
  In n1 (keys (selectedMeals s)) ->
  In n2 (keys (selectedMeals s)) ->
  (n1 <> n2 ->
   handleMealTimeChange n1 c1 (handleMealTimeChange n2 c2 s)
   = handleMealTimeChange n2 c2 (handleMealTimeChange n1 c1 s))
  /\ handleMealTimeChange n1 c1 (handleMealTimeChange n1 c2 s)
     = handleMealTimeChange n1 c1 s.
Proof.
  intros H1 H2. unfold handleMealTimeChange, setSelectedMeals.
  cbn [file diet userType numPeople selectedMeals pantryOption mealPlan loading error].
  split.
  - intros Hne. now rewrite (obj_set_swap n1 n2) by auto.
  - now rewrite obj_set_twice.
Qed.

Lemma ticks_commute_witness :
  handleMealTimeChange "snack" true (handleMealTimeChange "dinner" true initial)
  = handleMealTimeChange "dinner" true (handleMealTimeChange "snack" true initial)
  /\ handleMealTimeChange "snack" false (handleMealTimeChange "snack" true initial)
     = handleMealTimeChange "snack" false initial.
Proof.
  destruct (ticks_commute "snack" "dinner" true true initial) as [A _];
    [simpl; tauto|simpl; tauto|].
  destruct (ticks_commute "snack" "snack" false true initial) as [_ B];
    [simpl; tauto|simpl; tauto|].
  split; [apply A; discriminate|exact B].
Defined.

(** X3 -- after any run of checkbox events, a meal is selected exactly
    when the latest event on its box ticked it; a meal whose box saw no
    event keeps the selection it had. *)
Theorem selection_is_last_tick (evs : list (string * bool)) (s : State) (meal : string) :
  selected (selectedMeals (toggles evs s)) meal
  = match last_tick evs meal with
    | Some b => b
    | None => selected (selectedMeals s) meal
    end.
Proof.
  revert s. induction evs as [|[name checked] evs IH]; intros s; [reflexivity|].
  change (toggles ((name, checked) :: evs) s)
    with (toggles evs (handleMealTimeChange name checked s)).
  rewrite IH. cbn [last_tick fst snd].
  destruct (last_tick evs meal); [reflexivity|].
  unfold selected. cbn [handleMealTimeChange setSelectedMeals selectedMeals].
  rewrite assoc_obj_set, (String.eqb_sym name meal).
  now destruct (meal =? name).
Qed.

(** ** What a session keeps *)

Lemma submit_form (env : Env) (s : State) : form (submit env s) = form s.
Proof.
  destruct (missing_fields s) eqn:Hm.
  - now rewrite submit_missing.
  - rewrite submit_ready by exact Hm. now destruct (reply env s).
Qed.

Lemma handle_well_formed (s : State) (ev : event) :
  offered ev -> well_formed s -> well_formed (handle s ev).
Proof.
  intros Ho (Hk & Hp & Hd & Hu).
  destruct ev as [[|f files]|v|v|n|name checked|v|env]; cbn [handle offered] in *;
    try (repeat split; assumption).
  - repeat split; try assumption.
    cbn [handleMealTimeChange setSelectedMeals selectedMeals].
    rewrite keys_obj_set; [exact Hk|now rewrite Hk].
  - pose proof (submit_form env s) as F. unfold form in F.
    injection F as _ Ed Eu _ Em Ep. unfold well_formed.
    now rewrite Ed, Eu, Em, Ep.
Qed.

Lemma session_well_formed (evs : list event) :
  Forall offered evs -> well_formed (session evs).
Proof.
  unfold session.
  assert (W : well_formed initial) by (repeat split; simpl; tauto).
  revert W. generalize initial.
  induction evs as [|ev evs IH]; intros s W H; [exact W|].
  inversion H as [|? ? Hev Hevs]; subst.
  apply IH; [apply handle_well_formed; assumption|exact Hevs].
Qed.

(** X4 -- in a session whose events carry values the controls offer,
    the keys of the meal-time record stay the five meal times in their
    order, the pantry option stays one of its two values, and diet and
    user type stay options of their lists, whatever was submitted in
    between. *)
Theorem session_keeps_form_shape (evs : list event) :
  Forall offered evs ->
  keys (selectedMeals (session evs))
  = ["breakfast"; "brunch"; "lunch"; "snack"; "dinner"]
  /\ (pantryOption (session evs) = "pantryOnly"
      \/ pantryOption (session evs) = "allowNew")
  /\ In (diet (session evs)) dietOptions
  /\ In (userType (session evs)) userTypeOptions.
Proof.
  intros H. destruct (session_well_formed evs H) as (Hk & Hp & Hd & Hu).
  repeat split; try assumption.
  destruct Hp as [E|[E|[]]]; [left|right]; now symmetry.
Qed.

Lemma session_keeps_form_shape_witness :
  keys (selectedMeals
          (session [MealTimeChange "dinner" true; DietChange "Keto";
                    Submit offline; PantryOptionChange "allowNew"]))
  = ["breakfast"; "brunch"; "lunch"; "snack"; "dinner"].
Proof.
  apply (session_keeps_form_shape
           [MealTimeChange "dinner" true; DietChange "Keto";
            Submit offline; PantryOptionChange "allowNew"]).
  repeat constructor; simpl; tauto.
Defined.

(** X5 -- in such a session every meal-time checkbox is given a boolean
    for [checked] (never [undefined]), and exactly one of the two radio
    buttons is checked. *)
Theorem controls_are_controlled (evs : list event) :
  Forall offered evs ->
  (forall meal, In meal mealTimeOptions ->
     checkbox_checked (session evs) meal
     = VBool (selected (selectedMeals (session evs)) meal))
  /\ radio_checked (session evs) "pantryOnly"
     = negb (radio_checked (session evs) "allowNew").
Proof.
  intros H. destruct (session_well_formed evs H) as (Hk & Hp & _ & _). split.
  - intros meal Hin. unfold checkbox_checked, selected.
    destruct (assoc meal (selectedMeals (session evs))) eqn:E; [reflexivity|].
    exfalso. rewrite <- Hk in Hin. clear - Hin E.
    induction (selectedMeals (session evs)) as [|[k b] l IH]; [destruct Hin|].
    cbn [assoc] in E. destruct (k =? meal) eqn:Ek; [discriminate|].
    destruct Hin as [<-|Hin]; [now rewrite String.eqb_refl in Ek|auto].
  - unfold radio_checked. destruct Hp as [<-|[<-|[]]]; reflexivity.
Qed.

Lemma controls_are_controlled_witness :
  checkbox_checked
    (session [MealTimeChange "dinner" true; Submit offline;
              PantryOptionChange "allowNew"]) "dinner" = VBool true
  /\ radio_checked
       (session [MealTimeChange "dinner" true; Submit offline;
                 PantryOptionChange "allowNew"]) "pantryOnly" = false.
Proof.
  destruct (controls_are_controlled
              [MealTimeChange "dinner" true; Submit offline;
               PantryOptionChange "allowNew"]) as [C R];
    [repeat constructor; simpl; tauto|].
  split; [rewrite C; [reflexivity|simpl; tauto]|rewrite R; reflexivity].
Defined.

(** X6 -- a file, once chosen, stays chosen: no event takes it away,
    and a file event with an empty list changes nothing. *)
Theorem file_stays_chosen (s : State) (evs : list event) :
  file s <> None ->
  file (fold_left handle evs s) <> None
  /\ handleFileChange [] (fold_left handle evs s) = fold_left handle evs s.
Proof.
  intros H. split; [|reflexivity].
  revert s H. induction evs as [|ev evs IH]; intros s H; [exact H|].
  apply IH.
  destruct ev as [[|f files]|v|v|n|name checked|v|env]; cbn [handle]; try exact H.
  - discriminate.
  - pose proof (submit_form env s) as F. unfold form in F.
    injection F as -> _ _ _ _ _. exact H.
Qed.

Lemma file_stays_chosen_witness :
  file (fold_left handle
          [FileChange []; Submit offline; DietChange ""; FileChange []] ready)
  = Some pantry_file.
Proof.
  destruct (file_stays_chosen ready
              [FileChange []; Submit offline; DietChange ""; FileChange []])
    as [_ E]; [discriminate|].
  rewrite <- E. reflexivity.
Defined.

(** X7 -- a submission, whatever its outcome, leaves the fields of the
    form as they were. *)
Theorem submit_keeps_form (env : Env) (s : State) :
  (file (submit env s), diet (submit env s), userType (submit env s),
   numPeople (submit env s), selectedMeals (submit env s),
   pantryOption (submit env s))
  = (file s, diet s, userType s, numPeople s, selectedMeals s, pantryOption s).
Proof.
  destruct (missing_fields s) eqn:Hm.
  - now rewrite submit_missing.
  - rewrite submit_ready by exact Hm. now destruct (reply env s).
Qed.

(** ** What a submission does, step by step *)

Lemma handleSubmit_form (env : Env) (s s' : State) :
  form s = form s' -> handleSubmit env s = handleSubmit env s'.
Proof.
  destruct s, s'. unfold form. cbn. intros [= -> -> -> -> -> ->]. reflexivity.
Qed.

(** X8 -- a submission that passes the check starts afresh: what it
    does and the state it leaves depend on the fields of the form and
    on the world only, not on the result, the error or the loading flag
    it finds. *)
Theorem submit_forgets_previous (env : Env) (s s' : State) :
  form s = form s' ->
  missing_fields s = false ->
  handleSubmit env s = handleSubmit env s'
  /\ submit env s = submit env s'.
Proof.
  intros F Hm. pose proof (handleSubmit_form env s s' F) as E.
  split; [exact E|].
  assert (Hm' : missing_fields s' = false).
  { destruct s, s'. unfold form in F. cbn in F.
    injection F as -> -> -> -> -> ->. exact Hm. }
  rewrite !submit_ready by assumption.
  assert (R : reply env s = reply env s').
  { destruct s, s'. unfold form in F. cbn in F.
    injection F as -> -> -> -> -> ->. reflexivity. }
  rewrite <- R. destruct s, s'. unfold form in F. cbn in F.
  injection F as -> -> -> -> -> ->. now destruct (reply env _).
Qed.

Lemma submit_forgets_previous_witness :
  submit (answering "rice, egg" (Some stir_fry_text))
    (submit offline ready)
  = submit (answering "rice, egg" (Some stir_fry_text)) ready.
Proof.
  apply (submit_forgets_previous (answering "rice, egg" (Some stir_fry_text))
           (submit offline ready) ready); reflexivity.
Defined.

Lemma handleSubmit_calls_out (env : Env) (s : State) (f : File) :
  missing_fields s = false ->
  file s = Some f ->
  filter calls_out (fst (handleSubmit env s))
  = match new_GoogleGenAI env with
    | Throw _ => [NewGoogleGenAI]
    | Normal _ =>
        match readAsText env f with
        | Throw _ => [NewGoogleGenAI; ReadAsText f]
        | Normal fileContent =>
            [NewGoogleGenAI; ReadAsText f;
             GenerateContent (make_request (prompt s fileContent))]
        end
    end.
Proof.
  intros Hm Hf. unfold handleSubmit. rewrite Hm.
  unfold generate, fileToText, try_catch_finally, call, lift, emit, bindM.
  rewrite Hf.
  destruct (new_GoogleGenAI env) as [[]|e]; [|reflexivity].
  destruct (readAsText env f) as [fileContent|e]; [|reflexivity].
  destruct (generateContent env _) as [text|e]; [|reflexivity].
  destruct (JSON.parse (ToString text)) as [parsedPlan|e]; [|reflexivity].
  destruct (Get parsedPlan "meals"); reflexivity.
Qed.

(** X9 -- a submission that passes the check builds the client, then
    reads the file, then calls the service, each at most once and in
    that order; it stops calling out at the first of them that fails. *)
Theorem calls_in_order (env : Env) (s : State) (f : File) :
  missing_fields s = false ->
  file s = Some f ->
  filter calls_out (fst (handleSubmit env s))
  = match new_GoogleGenAI env with
    | Throw _ => [NewGoogleGenAI]
    | Normal _ =>
        match readAsText env f with
        | Throw _ => [NewGoogleGenAI; ReadAsText f]
        | Normal fileContent =>
            [NewGoogleGenAI; ReadAsText f;
             GenerateContent (make_request (prompt s fileContent))]
        end
    end.
Proof.
  intros Hm Hf.
  destruct (handleSubmit_ready env s Hm) as [tr [_ E]].
  pose proof (handleSubmit_calls_out env s f Hm Hf) as C.
  destruct (new_GoogleGenAI env) as [[]|e]; [|exact C].
  destruct (readAsText env f) as [fileContent|e]; exact C.
Qed.

Lemma calls_in_order_witness :
  filter calls_out (fst (handleSubmit offline ready))
  = [NewGoogleGenAI; ReadAsText pantry_file;
     GenerateContent (make_request (prompt ready "rice, egg"))].
Proof.
  exact (calls_in_order offline ready pantry_file eq_refl eq_refl).
Defined.

(** X10 -- whatever request a submission sends names the model
    gemini-2.5-flash, asks for application/json with the declared
    schema, and carries the prompt composed from the text the file was
    read as; none is sent unless the check has passed. *)
Theorem request_is_fixed (env : Env) (s : State) (req : request) :
  In (GenerateContent req) (fst (handleSubmit env s)) ->
  model req = "gemini-2.5-flash"
  /\ responseMimeType req = "application/json"
  /\ config_responseSchema req = responseSchema
  /\ missing_fields s = false
  /\ exists f fileContent,
       file s = Some f
       /\ readAsText env f = Normal fileContent
       /\ contents req = prompt s fileContent.
Proof.
  destruct (missing_fields s) eqn:Hm.
  - rewrite handleSubmit_missing by exact Hm.
    intros [E|[E|[]]]; discriminate.
  - intros Hin.
    assert (Hf : exists f, file s = Some f).
    { apply missing_fields_false_iff in Hm. destruct (file s) as [f|]; [now exists f|].
      now destruct Hm. }
    destruct Hf as [f Hf].
    assert (Hc : In (GenerateContent req) (filter calls_out (fst (handleSubmit env s))))
      by (apply filter_In; split; [exact Hin|reflexivity]).
    rewrite (handleSubmit_calls_out env s f Hm Hf) in Hc.
    destruct (new_GoogleGenAI env) as [[]|e].
    + destruct (readAsText env f) as [fileContent|e] eqn:Hr.
      * destruct Hc as [E|[E|[E|[]]]]; try discriminate.
        injection E as <-. repeat split. now exists f, fileContent.
      * destruct Hc as [E|[E|[]]]; discriminate.
    + destruct Hc as [E|[]]; discriminate.
Qed.

Lemma request_is_fixed_witness :
  model (make_request (prompt ready "rice, egg")) = "gemini-2.5-flash"
  /\ contents (make_request (prompt ready "rice, egg")) = prompt ready "rice, egg".
Proof.
  destruct (request_is_fixed offline ready (make_request (prompt ready "rice, egg")))
    as (M & _ & _ & _ & f & fileContent & _ & R & C).
  - simpl. tauto.
  - split; [exact M|]. injection R as <-. exact C.
Defined.

Lemma steps_app (s : State) (l1 l2 : list action) :
  steps s (l1 ++ l2) = (steps s l1 ++ steps (run s l1) l2)%list.
Proof.
  revert s. induction l1 as [|a l1 IH]; intros s; simpl; [reflexivity|].
  now rewrite IH.
Qed.

Lemma steps_quiet (tr : list action) (s : State) :
  existsb sets_state tr = false -> Forall (fun p => fst p = s) (steps s tr).
Proof.
  induction tr as [|a tr IH]; simpl; [constructor|].
  intros H. apply orb_false_iff in H. destruct H as [Ha Htr].
  destruct a; try discriminate; constructor; simpl; auto.
Qed.

(** X11 -- whenever a submission calls out (builds the client, reads
    the file, calls the service), the page is in its loading view: the
    indicator is shown, no error and no earlier result is on it, and the
    submit button is disabled and reads Generating. *)
Theorem calls_out_while_loading (gt_zero : value -> bool) (env : Env) (s st : State)
    (a : action) :
  In (st, a) (steps s (fst (handleSubmit env s))) ->
  calls_out a = true ->
  output gt_zero st = Normal [spinner; Val VNull; Val VNull]
  /\ submit_button st
     = Elem "button"
         [("type", VString "submit"); ("className", VString "btn btn-primary");
          ("disabled", VBool true)]
         [Val (VString "Generating...")].
Proof.
  destruct (missing_fields s) eqn:Hm.
  - rewrite handleSubmit_missing by exact Hm.
    intros [E|[E|[]]] Ha; injection E as _ <-; discriminate.
  - destruct (handleSubmit_ready env s Hm) as [tr [Htr ->]].
    set (last := match reply env s with
                 | Normal meals => SetMealPlan meals
                 | Throw _ => SetError (Some generation_message)
                 end).
    cbn [steps apply].
    intros [E|[E|[E|[E|Hin]]]] Ha; try (injection E as _ <-; discriminate).
    rewrite steps_app in Hin. apply in_app_or in Hin. destruct Hin as [Hin|Hin].
    + pose proof (steps_quiet tr
                    (setMealPlan VNull (setError None (setLoading true s))) Htr) as Q.
      rewrite Forall_forall in Q. specialize (Q _ Hin). cbn [fst] in Q. subst st.
      unfold output, results, submit_button, submit_disabled, loader, error_alert.
      cbn. rewrite orb_true_r. split; reflexivity.
    + cbn [steps] in Hin. destruct Hin as [E|[E|[]]]; injection E as _ <-.
      * subst last. destruct (reply env s); discriminate.
      * discriminate.
Qed.

Lemma calls_out_while_loading_witness :
  output (fun _ => false)
    (setMealPlan VNull (setError None (setLoading true served)))
  = Normal [spinner; Val VNull; Val VNull].
Proof.
  apply (calls_out_while_loading (fun _ => false) offline served
           (setMealPlan VNull (setError None (setLoading true served)))
           (ReadAsText pantry_file)).
  - simpl. tauto.
  - reflexivity.
Defined.

Lemma run_editing_end (edits : list (list event)) (s : State) (acts : list action)
    (a : action) :
  suspends a = false ->
  run_editing edits s (acts ++ [a]) = apply (run_editing edits s acts) a.
Proof.
  intros Ha. revert edits s.
  induction acts as [|x acts IH]; intros edits s; cbn [app run_editing].
  - now rewrite Ha.
  - destruct (suspends x); [destruct edits as [|evs rest]|]; apply IH.
Qed.

Lemma run_editing_alone (s : State) (acts : list action) :
  run_editing [] s acts = run s acts.
Proof.
  revert s. induction acts as [|x acts IH]; intros s; cbn [run_editing]; [reflexivity|].
  destruct (suspends x); exact (IH (apply s x)).
Qed.

(** X12 -- when a submission that passed the check is over, the loading
    state is false and the indicator is gone, whatever was done to the
    fields while the file was read and the service called, and whether
    the attempt succeeded or failed.  The submit button is then disabled
    exactly when the form, as it stands by then, lacks a required field:
    it is enabled again if the fields were left alone. *)
Theorem submit_reenables (env : Env) (s : State) (edits : list (list event)) :
  missing_fields s = false ->
  forallb (forallb field_event) edits = true ->
  loading (submit_editing env edits s) = false
  /\ loader (submit_editing env edits s) = Val (VBool false)
  /\ prop (submit_button (submit_editing env edits s)) "disabled"
     = Some (VBool (missing_fields (submit_editing env edits s)))
  /\ submit_editing env [] s = submit env s
  /\ prop (submit_button (submit_editing env [] s)) "disabled" = Some (VBool false).
Proof.
  intros Hm _.
  assert (L : forall eds, loading (submit_editing env eds s) = false).
  { intros eds. unfold submit_editing.
    destruct (handleSubmit_ready env s Hm) as [tr [_ ->]].
    rewrite !app_comm_cons.
    change [?x; SetLoading false] with ([x] ++ [SetLoading false])%list.
    rewrite app_assoc, run_editing_end by reflexivity.
    reflexivity. }
  assert (B : forall st, loading st = false ->
                prop (submit_button st) "disabled" = Some (VBool (missing_fields st))).
  { intros st E. cbn [submit_button prop assoc String.eqb Ascii.eqb Bool.eqb].
    unfold submit_disabled. now rewrite E, orb_false_r. }
  assert (A : submit_editing env [] s = submit env s)
    by apply run_editing_alone.
  split; [apply L|]. split; [unfold loader; now rewrite L|].
  split; [apply B, L|]. split; [exact A|].
  rewrite (B _ (L [])), A. do 2 f_equal.
  pose proof (submit_form env s) as E. unfold form in E.
  injection E as Ef Ed Eu _ Em _.
  unfold missing_fields, atLeastOneMealSelected in *.
  now rewrite Ef, Ed, Eu, Em.
Qed.

Lemma submit_reenables_witness :
  loading
    (submit_editing offline
       [[]; [MealTimeChange "snack" false; MealTimeChange "breakfast" false]] ready)
  = false
  /\ prop
       (submit_button
          (submit_editing offline
             [[]; [MealTimeChange "snack" false; MealTimeChange "breakfast" false]]
             ready)) "disabled"
     = Some (VBool true)
  /\ prop (submit_button (submit_editing offline [[DietChange "Keto"]] ready)) "disabled"
     = Some (VBool false)
  /\ prop (submit_button (submit_editing offline [] ready)) "disabled"
     = Some (VBool false).
Proof.
  destruct (submit_reenables offline ready
              [[]; [MealTimeChange "snack" false; MealTimeChange "breakfast" false]]
              eq_refl eq_refl) as (L & _ & B & _ & N).
  destruct (submit_reenables offline ready [[DietChange "Keto"]] eq_refl eq_refl)
    as (_ & _ & B' & _).
  split; [exact L|]. split; [exact B|]. split; [exact B'|exact N].
Defined.

(** X13 -- when a submission that passed the check is over, the page
    never holds both an error and a result: either the error state is
    null, or it is the generic message and the result state is null and
    nothing is shown for it. *)
Theorem outcome_is_exclusive (gt_zero : value -> bool) (env : Env) (s : State) :
  missing_fields s = false ->
  error (submit env s) = None
  \/ (error (submit env s) = Some generation_message
      /\ mealPlan (submit env s) = VNull
      /\ results gt_zero (submit env s) = Normal (Val VNull)).
Proof.
  intros Hm. rewrite submit_ready by exact Hm.
  destruct (reply env s); [left|right]; repeat split.
Qed.

Lemma outcome_is_exclusive_witness :
  error (submit offline served) = Some generation_message
  /\ mealPlan (submit offline served) = VNull.
Proof.
  destruct (outcome_is_exclusive (fun _ => false) offline served eq_refl)
    as [E|(E & M & _)].
  - discriminate E.
  - split; assumption.
Defined.

(** X14 -- a reply that is JSON, is not [null] and has no [meals] of
    its own (an object without that property, an array, a number, a
    string, a boolean) leaves the page empty: no loading indicator, no
    error, no result. *)
Theorem reply_without_meals_is_silent (gt_zero : value -> bool) (env : Env) (s : State)
    (f : File) (fileContent : string) (text : option string) (parsedPlan : value) :
  missing_fields s = false ->
  file s = Some f ->
  new_GoogleGenAI env = Normal tt ->
  readAsText env f = Normal fileContent ->
  generateContent env (make_request (prompt s fileContent)) = Normal text ->
  JSON.parse (ToString text) = Normal parsedPlan ->
  parsedPlan <> VNull ->
  (forall members, parsedPlan = VObject members -> assoc "meals" members = None) ->
  output gt_zero (submit env s) = Normal [Val (VBool false); Val VNull; Val VUndefined].
Proof.
  intros Hm Hf Hc Hr Hg Hp Hnull Hmeals.
  assert (G : Get parsedPlan "meals" = Normal VUndefined).
  { destruct parsedPlan; try reflexivity.
    - now destruct (parse_defined (ToString text)).
    - congruence.
    - cbn [Get]. now rewrite (Hmeals _ eq_refl). }
  now rewrite (submit_replied env s f fileContent text parsedPlan VUndefined).
Qed.

Lemma reply_without_meals_is_silent_witness :
  output (fun _ => false) (submit (answering "rice" (Some "[1, 2]")) ready)
  = Normal [Val (VBool false); Val VNull; Val VUndefined].
Proof.
  apply (reply_without_meals_is_silent (fun _ => false)
           (answering "rice" (Some "[1, 2]")) ready pantry_file "rice"
           (Some "[1, 2]")
           (match JSON.parse "[1, 2]" with Normal v => v | Throw _ => VNull end));
    try reflexivity; discriminate.
Defined.

(** ** What the page needs of a reply *)

Lemma render_meal_normal (gt_zero : value -> bool) (v : value) (i : nat) (c : node) :
  render_meal gt_zero v i = Normal c -> has_ingredients v.
Proof.
  unfold render_meal.
  destruct v as [| | | | | |members]; cbn [Get bind]; try discriminate;
    try (cbn; discriminate).
  destruct (shopping_list gt_zero _); cbn [bind]; [|discriminate].
  destruct (assoc "ingredients" members) as [[| | | | |items|]|] eqn:E;
    cbn [call_map bind]; try discriminate.
  intros _. now exists members, items.
Qed.

Lemma map_from_normal {A B} (f : A -> nat -> completion B) (l : list A) (i : nat)
    (ys : list B) :
  map_from f l i = Normal ys ->
  List.length ys = List.length l
  /\ Forall (fun x => exists j y, f x j = Normal y) l.
Proof.
  revert i ys. induction l as [|x l IH]; intros i ys; cbn [map_from].
  - intros [= <-]. split; [reflexivity|constructor].
  - destruct (f x i) as [y|e] eqn:Ex; cbn [bind]; [|discriminate].
    destruct (map_from f l (S i)) as [ys'|e] eqn:El; cbn [bind]; [|discriminate].
    intros [= <-]. destruct (IH _ _ El) as [L F].
    split; [simpl; now rewrite L|].
    constructor; [now exists i, y|exact F].
Qed.

Lemma results_shape (gt_zero : value -> bool) (s : State) (n : node) :
  results gt_zero s = Normal n ->
  ToBoolean (mealPlan s) = true ->
  exists items, mealPlan s = VArray items /\ Forall has_ingredients items.
Proof.
  unfold results. intros R T. rewrite T in R.
  destruct (mealPlan s) as [| | | | |items|]; try discriminate.
  cbn [call_map] in R.
  destruct (map_from (render_meal gt_zero) items 0) as [cards|e] eqn:E;
    cbn [bind] in R; [|discriminate].
  exists items. split; [reflexivity|].
  eapply Forall_impl; [|exact (proj2 (map_from_normal _ _ _ _ E))].
  intros v (j & c & Hc). exact (render_meal_normal gt_zero v j c Hc).
Qed.

(** X15 -- [App] gets through the result section without throwing
    only for an array whose every element is an object with an array of
    its own under [ingredients]; the element tree it returns then holds
    one card per element.  (What the cards hold, and whether the tree
    can be mounted, is not part of this.) *)
Theorem results_need_ingredients (gt_zero : value -> bool) (s : State) (n : node) :
  results gt_zero s = Normal n ->
  ToBoolean (mealPlan s) = true ->
  exists items cards,
    mealPlan s = VArray items
    /\ n = Elem "section"
             [("className", VString "results-section");
              ("aria-labelledby", VString "results-heading")]
             [Elem "h2" [("id", VString "results-heading")]
                [Text "Your Personalized Meal Plan"];
              Elem "div" [("className", VString "meals-grid")] [Items cards]]
    /\ List.length cards = List.length items
    /\ Forall has_ingredients items.
Proof.
  unfold results. intros R T. rewrite T in R.
  destruct (mealPlan s) as [| | | | |items|]; try discriminate.
  cbn [call_map] in R.
  destruct (map_from (render_meal gt_zero) items 0) as [cards|e] eqn:E;
    cbn [bind] in R; [|discriminate].
  injection R as <-. destruct (map_from_normal _ _ _ _ E) as [L F].
  exists items, cards. repeat split; [exact L|].
  eapply Forall_impl; [|exact F].
  intros v (j & c & Hc). exact (render_meal_normal gt_zero v j c Hc).
Qed.

Lemma results_need_ingredients_witness :
  exists (items : list value) (cards : list node),
    mealPlan served = VArray items
    /\ results_view
         [{| mealType := "dinner"; recipeName := "Stir Fry";
             ingredients := ["rice"; "egg"];
             instructions := "Cook rice, fry egg, mix.";
             shoppingList := None |}]
       = Elem "section"
           [("className", VString "results-section");
            ("aria-labelledby", VString "results-heading")]
           [Elem "h2" [("id", VString "results-heading")]
              [Text "Your Personalized Meal Plan"];
            Elem "div" [("className", VString "meals-grid")] [Items cards]]
    /\ List.length cards = List.length items
    /\ Forall has_ingredients items.
Proof.
  exact (results_need_ingredients (fun _ => false) served
           (results_view
              [{| mealType := "dinner"; recipeName := "Stir Fry";
                  ingredients := ["rice"; "egg"];
                  instructions := "Cook rice, fry egg, mix.";
                  shoppingList := None |}])
           eq_refl eq_refl).
Defined.

(** X16 -- a reply can be taken without any error and still break the
    page: when its [meals] is truthy and is not an array, or is an
    array with an element that is not an object with an array under
    [ingredients], the error state is null and drawing the result
    section throws. *)
Theorem accepted_reply_can_break_page (gt_zero : value -> bool) (env : Env) (s : State)
    (f : File) (fileContent : string) (text : option string)
    (parsedPlan meals : value) :
  missing_fields s = false ->
  file s = Some f ->
  new_GoogleGenAI env = Normal tt ->
  readAsText env f = Normal fileContent ->
  generateContent env (make_request (prompt s fileContent)) = Normal text ->
  JSON.parse (ToString text) = Normal parsedPlan ->
  Get parsedPlan "meals" = Normal meals ->
  ToBoolean meals = true ->
  (forall items, meals = VArray items ->
     exists bad, In bad items /\ ~ has_ingredients bad) ->
  error (submit env s) = None
  /\ exists e, results gt_zero (submit env s) = Throw e.
Proof.
  intros Hm Hf Hc Hr Hg Hp Hget Ht Hbad.
  rewrite (submit_replied env s f fileContent text parsedPlan meals) by assumption.
  split; [reflexivity|].
  destruct (results gt_zero _) as [n|e] eqn:R; [|now exists e].
  exfalso.
  destruct (results_shape gt_zero _ n R Ht) as (items & E & F).
  cbn [mealPlan setLoading setMealPlan] in E.
  destruct (Hbad items E) as (bad & Hin & Hno).
  rewrite Forall_forall in F. exact (Hno (F bad Hin)).
Qed.

Lemma accepted_reply_can_break_page_witness :
  error (submit (answering "rice" (Some mismatch_text)) ready) = None
  /\ exists e,
       results (fun _ => false) (submit (answering "rice" (Some mismatch_text)) ready)
       = Throw e.
Proof.
  apply (accepted_reply_can_break_page (fun _ => false)
           (answering "rice" (Some mismatch_text)) ready pantry_file "rice"
           (Some mismatch_text) (VObject [("meals", VString "none")])
           (VString "none")); try reflexivity.
  intros items E. discriminate E.
Defined.

(** ** What the prompt holds *)

Lemma length_append (a b : string) :
  String.length (a ++ b) = String.length a + String.length b.
Proof. induction a as [|x a IH]; simpl; [reflexivity|now rewrite IH]. Qed.

Lemma append_cancel_l (a x y : string) : a ++ x = a ++ y -> x = y.
Proof.
  induction a as [|c a IH]; simpl; [trivial|]. intros [= E]. exact (IH E).
Qed.

Lemma append_cancel_r (b x y : string) : x ++ b = y ++ b -> x = y.
Proof.
  revert y. induction x as [|c x IH]; intros [|d y] E; simpl in E.
  - reflexivity.
  - apply (f_equal String.length) in E. simpl in E. rewrite length_append in E. lia.
  - apply (f_equal String.length) in E. simpl in E. rewrite length_append in E. lia.
  - injection E as -> E. f_equal. exact (IH _ E).
Qed.

(** X17 -- the text of the file goes into the prompt whole and
    unchanged, between a lead and a close that do not depend on it; so
    the prompt is longer than the one of an empty file by the length of
    the text, and two texts that give the same prompt are the same. *)
Theorem prompt_embeds_file_verbatim (s : State) :
  exists before after,
    (forall fileContent, prompt s fileContent = before ++ fileContent ++ after)
    /\ (forall fileContent,
          String.length (prompt s fileContent)
          = String.length (prompt s "") + String.length fileContent)
    /\ (forall fileContent fileContent',
          prompt s fileContent = prompt s fileContent' ->
          fileContent = fileContent').
Proof.
  exists (t_user ++ userType s ++ t_people ++ Number_toString (numPeople s)
          ++ t_diet ++ diet s ++ t_meals ++ selectedMealNames s ++ t_pantry),
         (t_policy ++ pantryInstruction s ++ t_end).
  assert (D : forall fileContent,
            prompt s fileContent
            = (t_user ++ userType s ++ t_people ++ Number_toString (numPeople s)
               ++ t_diet ++ diet s ++ t_meals ++ selectedMealNames s ++ t_pantry)
              ++ fileContent ++ t_policy ++ pantryInstruction s ++ t_end).
  { intros fileContent. unfold prompt. now rewrite !append_assoc. }
  split; [exact D|]. split.
  - intros fileContent. rewrite !D, !length_append. simpl. lia.
  - intros fileContent fileContent' E. rewrite !D in E.
    apply append_cancel_l in E. exact (append_cancel_r _ _ _ E).
Qed.

(** X18 -- with the five meal times as keys, the check for a selected
    meal time passes exactly when the list of meal times in the prompt
    is not empty: a submission that passes the check never asks for
    recipes for no meal. *)
Theorem checked_form_names_a_meal (s : State) :
  keys (selectedMeals s) = mealTimeOptions ->
  atLeastOneMealSelected s = negb (selectedMealNames s =? "")
  /\ (missing_fields s = false -> selectedMealNames s <> "").
Proof.
  intros Hk.
  assert (E : atLeastOneMealSelected s = negb (selectedMealNames s =? "")).
  { unfold atLeastOneMealSelected, selectedMealNames. revert Hk.
    destruct (selectedMeals s)
      as [|[k1 b1] [|[k2 b2] [|[k3 b3] [|[k4 b4] [|[k5 b5] [|? ?]]]]]];
      try discriminate.
    intros [= -> -> -> -> ->].
    destruct b1, b2, b3, b4, b5; reflexivity. }
  split; [exact E|].
  intros Hm. apply String.eqb_neq. apply negb_true_iff. rewrite <- E.
  unfold missing_fields in Hm. rewrite !orb_false_iff, negb_false_iff in Hm. tauto.
Qed.

Lemma checked_form_names_a_meal_witness :
  selectedMealNames ready <> "" /\ selectedMealNames initial = "".
Proof.
  split.
  - apply (proj2 (checked_form_names_a_meal ready eq_refl)). reflexivity.
  - apply String.eqb_eq. apply negb_false_iff.
    rewrite <- (proj1 (checked_form_names_a_meal initial eq_refl)). reflexivity.
Defined.

(** ** The number in the people field *)

(** X19 -- an integer that a double holds exactly reads back from the
    field as itself: the text the field shows for it, handed to the
    change handler, stores the same number. *)
Theorem people_field_round_trip (z : Z) (s : State) :
  (Z.abs z <= 2 ^ 53)%Z ->
  Number_of_string (Number_toString (Int z)) = Some (Int z)
  /\ handleNumPeopleChange (Number_toString (Int z)) s = Some (setNumPeople (Int z) s).
Proof.
  intros Hz.
  assert (E : Number_of_string (Number_toString (Int z)) = Some (Int z)).
  { unfold Number_of_string, Number_toString.
    assert (N1 : Z.to_int z <> Decimal.Pos Decimal.Nil).
    { destruct z; simpl; try discriminate.
      intros [= H]. exact (DecimalPos.Unsigned.to_uint_nonnil _ H). }
    assert (N2 : Z.to_int z <> Decimal.Neg Decimal.Nil).
    { destruct z; simpl; try discriminate.
      intros [= H]. exact (DecimalPos.Unsigned.to_uint_nonnil _ H). }
    pose proof (NilZero.isi (Z.to_int z) N1 N2) as I.
    destruct (NilZero.string_of_int (Z.to_int z)) eqn:S0; [discriminate I|].
    cbn [String.eqb]. rewrite I, DecimalZ.of_to.
    apply Z.leb_le in Hz. now rewrite Hz. }
  split; [exact E|]. unfold handleNumPeopleChange. now rewrite E.
Qed.

Lemma people_field_round_trip_witness :
  Number_of_string (Number_toString (Int (-12))) = Some (Int (-12)).
Proof.
  apply (people_field_round_trip (-12) initial). vm_compute. discriminate.
Defined.

(** ** What editing the form leaves alone *)

(** X20 -- editing the form changes neither the result, nor the error,
    nor the loading flag: the plan or the message of the last submission
    stays on the page until the next one. *)
Theorem field_events_keep_outcome (gt_zero : value -> bool) (s : State) (ev : event) :
  field_event ev = true ->
  (mealPlan (handle s ev), error (handle s ev), loading (handle s ev))
  = (mealPlan s, error s, loading s)
  /\ output gt_zero (handle s ev) = output gt_zero s.
Proof.
  destruct ev as [[|f files]|v|v|n|name checked|v|env]; try discriminate;
    intros _; split; reflexivity.
Qed.

Lemma field_events_keep_outcome_witness :
  output (fun _ => false) (handle served (MealTimeChange "dinner" true))
  = output (fun _ => false) served.
Proof.
  exact (proj2 (field_events_keep_outcome (fun _ => false) served
                  (MealTimeChange "dinner" true) eq_refl)).
Defined.

(** ** What is logged *)

(** X21 -- a submission writes to the console exactly when the check
    has passed and the attempt has failed, and what it writes is the
    failure that was thrown; a refused or a successful submission logs
    nothing. *)
Theorem failures_are_logged (env : Env) (s : State) (e : exn) :
  In (ConsoleError e) (fst (handleSubmit env s))
  <-> missing_fields s = false /\ reply env s = Throw e.
Proof.
  destruct (missing_fields s) eqn:Hm.
  - rewrite handleSubmit_missing by exact Hm. split.
    + intros [E|[E|[]]]; discriminate.
    + intros [E _]. discriminate.
  - assert (L : forall e0 : exn,
              In (ConsoleError e) [ConsoleError e0] <-> Throw (A:=value) e0 = Throw e).
    { intros e0. split.
      - intros [[= ->]|[]]. reflexivity.
      - intros [= ->]. now left. }
    unfold handleSubmit. rewrite Hm.
    unfold reply, generate, fileToText, try_catch_finally, call, lift, emit, bindM, bind.
    destruct (new_GoogleGenAI env) as [[]|e0].
    2:{ cbn. rewrite <- (L e0). cbn. intuition discriminate. }
    destruct (file s) as [f|].
    2:{ cbn. rewrite <- (L TypeError). cbn. intuition discriminate. }
    destruct (readAsText env f) as [fileContent|e0].
    2:{ cbn. rewrite <- (L e0). cbn. intuition discriminate. }
    destruct (generateContent env _) as [text|e0].
    2:{ cbn. rewrite <- (L e0). cbn. intuition discriminate. }
    destruct (JSON.parse (ToString text)) as [parsedPlan|e0].
    2:{ cbn. rewrite <- (L e0). cbn. intuition discriminate. }
    destruct (Get parsedPlan "meals") as [meals|e0].
    2:{ cbn. rewrite <- (L e0). cbn. intuition discriminate. }
    cbn. intuition discriminate.
Qed.
